(** * mb: an HTTP/1.1 load generator -- loader, sharding, counters, reporting

    A shallow embedding of the parts of [mb.c] and [net.h] that
    decide start-up validation ([args_parse], [json_process_connection*]),
    the template expansion ([json_process_connections],
    [request_initialize_body_random]), the partition of the connection
    array among worker threads ([thread_main], [threads_start]), the
    [run] counter ([requests_done]) and the final report ([stats_print],
    [format_bytes]).

    Conventions.
    - C integers are [Z]; every conversion to a narrower or unsigned type
      is written out ([to_int], [to_uint64]).
    - [char *] values are [option string] ([None] is [NULL]); strings are
      taken as [strcmp]/[strdup] see them.
    - The array [cs] is a list of slots; a slot that was allocated but
      never written is [None].
    - [die()] ends the process: loader and parser functions run in the
      monad [M], whose outcomes are [Ok] or [Exit]. *)

From Stdlib Require Import ZArith List String Ascii Bool Lia QArith Qround.
From Stdlib Require Import DecimalString.
From stdpp Require Import base tactics list.

Import ListNotations.
Local Open Scope string_scope.
Local Open Scope Z_scope.

(** ** Machine integers *)

(** Conversion to [uint64_t]. *)
Definition to_uint64 (x : Z) : Z := x mod 2 ^ 64.

(** Conversion to [int] (32 bits, two's complement). *)
Definition to_int (x : Z) : Z := (x + 2 ^ 31) mod 2 ^ 32 - 2 ^ 31.

Definition INT_MIN : Z := - 2 ^ 31.
Definition INT_MAX : Z := 2 ^ 31 - 1.

Definition EXIT_SUCCESS : Z := 0.
Definition EXIT_FAILURE : Z := 1.

(** ** net.h: constants and macros *)

Definition MAX_REQ_LEN : Z := Z.shiftl 1 26.

Definition NUM2HEX_DIGITS (n : Z) : Z :=
  if n <? Z.shiftl 1 4 then 1 else
  if n <? Z.shiftl 1 8 then 2 else
  if n <? Z.shiftl 1 12 then 3 else
  if n <? Z.shiftl 1 16 then 4 else
  if n <? Z.shiftl 1 20 then 5 else
  if n <? Z.shiftl 1 24 then 6 else
  if n <? Z.shiftl 1 28 then 7 else
  if n <? Z.shiftl 1 32 then 8 else
  if n <? Z.shiftl 1 36 then 9 else
  if n <? Z.shiftl 1 40 then 10 else
  if n <? Z.shiftl 1 44 then 11 else
  if n <? Z.shiftl 1 48 then 12 else
  if n <? Z.shiftl 1 52 then 13 else
  if n <? Z.shiftl 1 56 then 14 else
  if n <? Z.shiftl 1 60 then 15 else
  16.

(** ** net.h: data model *)

Inductive scheme_t : Type := http | https.

Inductive req_body_type_t : Type := body_content | body_random.

Record key_value : Type := mk_key_value {
  key : string;
  value : string
}.

Record keep_alive_t : Type := mk_keep_alive {
  enable : bool;  (* enable TCP keep-alive *)
  idle : Z;       (* int *)
  intvl : Z;      (* int *)
  cnt : Z         (* int *)
}.

Record tcp_t : Type := mk_tcp {
  keep_alive : keep_alive_t
}.

Record cstats_t : Type := mk_cstats {
  start : Z;
  writeable : Z;
  established : Z;
  handshake : Z;
  connections_made : Z;  (* cstats.connections *)
  reqs : Z;
  reqs_total : Z;        (* total number of requests sent over this connection *)
  written_total : Z;     (* total number of bytes written/sent *)
  read_total : Z         (* total number of bytes received *)
}.

Record body_t : Type := mk_body {
  unsent : Z;
  offset : Z
}.

(** [struct addrinfo *] as filled in by the resolver: an opaque handle. *)
Definition addrinfo : Type := Z.

(** [struct connection]. The parser and TLS members ([parser], [ssl],
    [ssl_session]) belong to external libraries and are left out; no
    function of [mb.c] reads or writes them. *)
Record connection : Type := mk_connection {
  t : option Z;  (* pointer to a thread that handles this connection (the thread id) *)
  fd : Z;  (* file descriptor *)
  host_from : option string;  (* bind source IP address *)
  scheme : scheme_t;  (* http/https *)
  host : option string;  (* target host *)
  port : Z;  (* target port (int) *)
  addr_from : option addrinfo;  (* translated address for host_from *)
  addr_to : option addrinfo;  (* translated address for host/port *)
  tcp : tcp_t;  (* tcp.keep_alive.{enable,idle,intvl,cnt} *)
  method : option string;  (* method *)
  path : option string;  (* URL path *)
  headers : option (list key_value);  (* key/value header pairs *)
  delay_min : Z;  (* minimum delay between requests [ms] (uint64_t) *)
  delay_max : Z;  (* maximum delay between requests [ms] (uint64_t) *)
  delayed : bool;  (* whether we need to delay this connection by a time event *)
  delayed_id : Z;  (* ID of the delayed time event *)
  ramp_up : Z;  (* JMeter-style ramp-up time [ms] (uint64_t) *)
  cstats : cstats_t;  (* per-connection counters *)
  reqs_max : Z;  (* maximum number of requests (uint64_t) *)
  keep_alive_reqs : Z;  (* requests before reconnecting (uint64_t) *)
  tls_session_reuse : bool;  (* enable session resumption *)
  req_body : option string;  (* HTTP request body (unless random) *)
  req_body_random : option (list Z);  (* buffer filled with chunk TE PRNG data *)
  req_body_type : req_body_type_t;  (* content or random *)
  req_body_size : Z;  (* body size for random bodies (uint64_t) *)
  request : option string;  (* request data (keep-alive) *)
  request_cclose : option string;  (* request data (Connection: close) *)
  close_client : bool;  (* client-initiated close *)
  close_linger : bool;  (* enable socket lingering *)
  close_linger_sec : Z;  (* linger seconds (uint64_t) *)
  cclose : bool;  (* close upon receiving response *)
  header_cclose : bool;  (* current request built as Connection: close *)
  request_length : Z;  (* length of request *)
  request_cclose_length : Z;  (* length of request_cclose *)
  message_complete : bool;  (* complete HTTP response received *)
  body : body_t;  (* body.unsent / body.offset *)
  written : Z;  (* bytes of request already written *)
  written_overhead : Z;  (* bytes of encoding overhead written *)
  read : Z;  (* bytes of response already read *)
  status : Z;  (* HTTP response status *)
  cookies : option string;  (* cookies received *)
  duplicate : bool  (* duplicate of a previous connection *)
}.

Definition set_t (v : option Z) (c : connection) : connection :=
  mk_connection
    v (fd c) (host_from c) (scheme c) (host c) (port c) (addr_from c)
    (addr_to c) (tcp c) (method c) (path c) (headers c) (delay_min c)
    (delay_max c) (delayed c) (delayed_id c) (ramp_up c) (cstats c) (reqs_max
    c) (keep_alive_reqs c) (tls_session_reuse c) (req_body c)
    (req_body_random c) (req_body_type c) (req_body_size c) (request c)
    (request_cclose c) (close_client c) (close_linger c) (close_linger_sec c)
    (cclose c) (header_cclose c) (request_length c) (request_cclose_length c)
    (message_complete c) (body c) (written c) (written_overhead c) (read c)
    (status c) (cookies c) (duplicate c).

Definition set_host_from (v : option string) (c : connection) : connection :=
  mk_connection
    (t c) (fd c) v (scheme c) (host c) (port c) (addr_from c) (addr_to c)
    (tcp c) (method c) (path c) (headers c) (delay_min c) (delay_max c)
    (delayed c) (delayed_id c) (ramp_up c) (cstats c) (reqs_max c)
    (keep_alive_reqs c) (tls_session_reuse c) (req_body c) (req_body_random
    c) (req_body_type c) (req_body_size c) (request c) (request_cclose c)
    (close_client c) (close_linger c) (close_linger_sec c) (cclose c)
    (header_cclose c) (request_length c) (request_cclose_length c)
    (message_complete c) (body c) (written c) (written_overhead c) (read c)
    (status c) (cookies c) (duplicate c).

Definition set_scheme (v : scheme_t) (c : connection) : connection :=
  mk_connection
    (t c) (fd c) (host_from c) v (host c) (port c) (addr_from c) (addr_to c)
    (tcp c) (method c) (path c) (headers c) (delay_min c) (delay_max c)
    (delayed c) (delayed_id c) (ramp_up c) (cstats c) (reqs_max c)
    (keep_alive_reqs c) (tls_session_reuse c) (req_body c) (req_body_random
    c) (req_body_type c) (req_body_size c) (request c) (request_cclose c)
    (close_client c) (close_linger c) (close_linger_sec c) (cclose c)
    (header_cclose c) (request_length c) (request_cclose_length c)
    (message_complete c) (body c) (written c) (written_overhead c) (read c)
    (status c) (cookies c) (duplicate c).

Definition set_host (v : option string) (c : connection) : connection :=
  mk_connection
    (t c) (fd c) (host_from c) (scheme c) v (port c) (addr_from c) (addr_to
    c) (tcp c) (method c) (path c) (headers c) (delay_min c) (delay_max c)
    (delayed c) (delayed_id c) (ramp_up c) (cstats c) (reqs_max c)
    (keep_alive_reqs c) (tls_session_reuse c) (req_body c) (req_body_random
    c) (req_body_type c) (req_body_size c) (request c) (request_cclose c)
    (close_client c) (close_linger c) (close_linger_sec c) (cclose c)
    (header_cclose c) (request_length c) (request_cclose_length c)
    (message_complete c) (body c) (written c) (written_overhead c) (read c)
    (status c) (cookies c) (duplicate c).

Definition set_port (v : Z) (c : connection) : connection :=
  mk_connection
    (t c) (fd c) (host_from c) (scheme c) (host c) v (addr_from c) (addr_to
    c) (tcp c) (method c) (path c) (headers c) (delay_min c) (delay_max c)
    (delayed c) (delayed_id c) (ramp_up c) (cstats c) (reqs_max c)
    (keep_alive_reqs c) (tls_session_reuse c) (req_body c) (req_body_random
    c) (req_body_type c) (req_body_size c) (request c) (request_cclose c)
    (close_client c) (close_linger c) (close_linger_sec c) (cclose c)
    (header_cclose c) (request_length c) (request_cclose_length c)
    (message_complete c) (body c) (written c) (written_overhead c) (read c)
    (status c) (cookies c) (duplicate c).

Definition set_addr_from (v : option addrinfo) (c : connection) : connection :=
  mk_connection
    (t c) (fd c) (host_from c) (scheme c) (host c) (port c) v (addr_to c)
    (tcp c) (method c) (path c) (headers c) (delay_min c) (delay_max c)
    (delayed c) (delayed_id c) (ramp_up c) (cstats c) (reqs_max c)
    (keep_alive_reqs c) (tls_session_reuse c) (req_body c) (req_body_random
    c) (req_body_type c) (req_body_size c) (request c) (request_cclose c)
    (close_client c) (close_linger c) (close_linger_sec c) (cclose c)
    (header_cclose c) (request_length c) (request_cclose_length c)
    (message_complete c) (body c) (written c) (written_overhead c) (read c)
    (status c) (cookies c) (duplicate c).

Definition set_addr_to (v : option addrinfo) (c : connection) : connection :=
  mk_connection
    (t c) (fd c) (host_from c) (scheme c) (host c) (port c) (addr_from c) v
    (tcp c) (method c) (path c) (headers c) (delay_min c) (delay_max c)
    (delayed c) (delayed_id c) (ramp_up c) (cstats c) (reqs_max c)
    (keep_alive_reqs c) (tls_session_reuse c) (req_body c) (req_body_random
    c) (req_body_type c) (req_body_size c) (request c) (request_cclose c)
    (close_client c) (close_linger c) (close_linger_sec c) (cclose c)
    (header_cclose c) (request_length c) (request_cclose_length c)
    (message_complete c) (body c) (written c) (written_overhead c) (read c)
    (status c) (cookies c) (duplicate c).

Definition set_tcp (v : tcp_t) (c : connection) : connection :=
  mk_connection
    (t c) (fd c) (host_from c) (scheme c) (host c) (port c) (addr_from c)
    (addr_to c) v (method c) (path c) (headers c) (delay_min c) (delay_max c)
    (delayed c) (delayed_id c) (ramp_up c) (cstats c) (reqs_max c)
    (keep_alive_reqs c) (tls_session_reuse c) (req_body c) (req_body_random
    c) (req_body_type c) (req_body_size c) (request c) (request_cclose c)
    (close_client c) (close_linger c) (close_linger_sec c) (cclose c)
    (header_cclose c) (request_length c) (request_cclose_length c)
    (message_complete c) (body c) (written c) (written_overhead c) (read c)
    (status c) (cookies c) (duplicate c).

Definition set_method (v : option string) (c : connection) : connection :=
  mk_connection
    (t c) (fd c) (host_from c) (scheme c) (host c) (port c) (addr_from c)
    (addr_to c) (tcp c) v (path c) (headers c) (delay_min c) (delay_max c)
    (delayed c) (delayed_id c) (ramp_up c) (cstats c) (reqs_max c)
    (keep_alive_reqs c) (tls_session_reuse c) (req_body c) (req_body_random
    c) (req_body_type c) (req_body_size c) (request c) (request_cclose c)
    (close_client c) (close_linger c) (close_linger_sec c) (cclose c)
    (header_cclose c) (request_length c) (request_cclose_length c)
    (message_complete c) (body c) (written c) (written_overhead c) (read c)
    (status c) (cookies c) (duplicate c).

Definition set_path (v : option string) (c : connection) : connection :=
  mk_connection
    (t c) (fd c) (host_from c) (scheme c) (host c) (port c) (addr_from c)
    (addr_to c) (tcp c) (method c) v (headers c) (delay_min c) (delay_max c)
    (delayed c) (delayed_id c) (ramp_up c) (cstats c) (reqs_max c)
    (keep_alive_reqs c) (tls_session_reuse c) (req_body c) (req_body_random
    c) (req_body_type c) (req_body_size c) (request c) (request_cclose c)
    (close_client c) (close_linger c) (close_linger_sec c) (cclose c)
    (header_cclose c) (request_length c) (request_cclose_length c)
    (message_complete c) (body c) (written c) (written_overhead c) (read c)
    (status c) (cookies c) (duplicate c).

Definition set_headers (v : option (list key_value)) (c : connection) : connection :=
  mk_connection
    (t c) (fd c) (host_from c) (scheme c) (host c) (port c) (addr_from c)
    (addr_to c) (tcp c) (method c) (path c) v (delay_min c) (delay_max c)
    (delayed c) (delayed_id c) (ramp_up c) (cstats c) (reqs_max c)
    (keep_alive_reqs c) (tls_session_reuse c) (req_body c) (req_body_random
    c) (req_body_type c) (req_body_size c) (request c) (request_cclose c)
    (close_client c) (close_linger c) (close_linger_sec c) (cclose c)
    (header_cclose c) (request_length c) (request_cclose_length c)
    (message_complete c) (body c) (written c) (written_overhead c) (read c)
    (status c) (cookies c) (duplicate c).

Definition set_delay_min (v : Z) (c : connection) : connection :=
  mk_connection
    (t c) (fd c) (host_from c) (scheme c) (host c) (port c) (addr_from c)
    (addr_to c) (tcp c) (method c) (path c) (headers c) v (delay_max c)
    (delayed c) (delayed_id c) (ramp_up c) (cstats c) (reqs_max c)
    (keep_alive_reqs c) (tls_session_reuse c) (req_body c) (req_body_random
    c) (req_body_type c) (req_body_size c) (request c) (request_cclose c)
    (close_client c) (close_linger c) (close_linger_sec c) (cclose c)
    (header_cclose c) (request_length c) (request_cclose_length c)
    (message_complete c) (body c) (written c) (written_overhead c) (read c)
    (status c) (cookies c) (duplicate c).

Definition set_delay_max (v : Z) (c : connection) : connection :=
  mk_connection
    (t c) (fd c) (host_from c) (scheme c) (host c) (port c) (addr_from c)
    (addr_to c) (tcp c) (method c) (path c) (headers c) (delay_min c) v
    (delayed c) (delayed_id c) (ramp_up c) (cstats c) (reqs_max c)
    (keep_alive_reqs c) (tls_session_reuse c) (req_body c) (req_body_random
    c) (req_body_type c) (req_body_size c) (request c) (request_cclose c)
    (close_client c) (close_linger c) (close_linger_sec c) (cclose c)
    (header_cclose c) (request_length c) (request_cclose_length c)
    (message_complete c) (body c) (written c) (written_overhead c) (read c)
    (status c) (cookies c) (duplicate c).

Definition set_delayed (v : bool) (c : connection) : connection :=
  mk_connection
    (t c) (fd c) (host_from c) (scheme c) (host c) (port c) (addr_from c)
    (addr_to c) (tcp c) (method c) (path c) (headers c) (delay_min c)
    (delay_max c) v (delayed_id c) (ramp_up c) (cstats c) (reqs_max c)
    (keep_alive_reqs c) (tls_session_reuse c) (req_body c) (req_body_random
    c) (req_body_type c) (req_body_size c) (request c) (request_cclose c)
    (close_client c) (close_linger c) (close_linger_sec c) (cclose c)
    (header_cclose c) (request_length c) (request_cclose_length c)
    (message_complete c) (body c) (written c) (written_overhead c) (read c)
    (status c) (cookies c) (duplicate c).

Definition set_ramp_up (v : Z) (c : connection) : connection :=
  mk_connection
    (t c) (fd c) (host_from c) (scheme c) (host c) (port c) (addr_from c)
    (addr_to c) (tcp c) (method c) (path c) (headers c) (delay_min c)
    (delay_max c) (delayed c) (delayed_id c) v (cstats c) (reqs_max c)
    (keep_alive_reqs c) (tls_session_reuse c) (req_body c) (req_body_random
    c) (req_body_type c) (req_body_size c) (request c) (request_cclose c)
    (close_client c) (close_linger c) (close_linger_sec c) (cclose c)
    (header_cclose c) (request_length c) (request_cclose_length c)
    (message_complete c) (body c) (written c) (written_overhead c) (read c)
    (status c) (cookies c) (duplicate c).

Definition set_cstats (v : cstats_t) (c : connection) : connection :=
  mk_connection
    (t c) (fd c) (host_from c) (scheme c) (host c) (port c) (addr_from c)
    (addr_to c) (tcp c) (method c) (path c) (headers c) (delay_min c)
    (delay_max c) (delayed c) (delayed_id c) (ramp_up c) v (reqs_max c)
    (keep_alive_reqs c) (tls_session_reuse c) (req_body c) (req_body_random
    c) (req_body_type c) (req_body_size c) (request c) (request_cclose c)
    (close_client c) (close_linger c) (close_linger_sec c) (cclose c)
    (header_cclose c) (request_length c) (request_cclose_length c)
    (message_complete c) (body c) (written c) (written_overhead c) (read c)
    (status c) (cookies c) (duplicate c).

Definition set_reqs_max (v : Z) (c : connection) : connection :=
  mk_connection
    (t c) (fd c) (host_from c) (scheme c) (host c) (port c) (addr_from c)
    (addr_to c) (tcp c) (method c) (path c) (headers c) (delay_min c)
    (delay_max c) (delayed c) (delayed_id c) (ramp_up c) (cstats c) v
    (keep_alive_reqs c) (tls_session_reuse c) (req_body c) (req_body_random
    c) (req_body_type c) (req_body_size c) (request c) (request_cclose c)
    (close_client c) (close_linger c) (close_linger_sec c) (cclose c)
    (header_cclose c) (request_length c) (request_cclose_length c)
    (message_complete c) (body c) (written c) (written_overhead c) (read c)
    (status c) (cookies c) (duplicate c).

Definition set_keep_alive_reqs (v : Z) (c : connection) : connection :=
  mk_connection
    (t c) (fd c) (host_from c) (scheme c) (host c) (port c) (addr_from c)
    (addr_to c) (tcp c) (method c) (path c) (headers c) (delay_min c)
    (delay_max c) (delayed c) (delayed_id c) (ramp_up c) (cstats c) (reqs_max
    c) v (tls_session_reuse c) (req_body c) (req_body_random c)
    (req_body_type c) (req_body_size c) (request c) (request_cclose c)
    (close_client c) (close_linger c) (close_linger_sec c) (cclose c)
    (header_cclose c) (request_length c) (request_cclose_length c)
    (message_complete c) (body c) (written c) (written_overhead c) (read c)
    (status c) (cookies c) (duplicate c).

Definition set_tls_session_reuse (v : bool) (c : connection) : connection :=
  mk_connection
    (t c) (fd c) (host_from c) (scheme c) (host c) (port c) (addr_from c)
    (addr_to c) (tcp c) (method c) (path c) (headers c) (delay_min c)
    (delay_max c) (delayed c) (delayed_id c) (ramp_up c) (cstats c) (reqs_max
    c) (keep_alive_reqs c) v (req_body c) (req_body_random c) (req_body_type
    c) (req_body_size c) (request c) (request_cclose c) (close_client c)
    (close_linger c) (close_linger_sec c) (cclose c) (header_cclose c)
    (request_length c) (request_cclose_length c) (message_complete c) (body
    c) (written c) (written_overhead c) (read c) (status c) (cookies c)
    (duplicate c).

Definition set_req_body (v : option string) (c : connection) : connection :=
  mk_connection
    (t c) (fd c) (host_from c) (scheme c) (host c) (port c) (addr_from c)
    (addr_to c) (tcp c) (method c) (path c) (headers c) (delay_min c)
    (delay_max c) (delayed c) (delayed_id c) (ramp_up c) (cstats c) (reqs_max
    c) (keep_alive_reqs c) (tls_session_reuse c) v (req_body_random c)
    (req_body_type c) (req_body_size c) (request c) (request_cclose c)
    (close_client c) (close_linger c) (close_linger_sec c) (cclose c)
    (header_cclose c) (request_length c) (request_cclose_length c)
    (message_complete c) (body c) (written c) (written_overhead c) (read c)
    (status c) (cookies c) (duplicate c).

Definition set_req_body_random (v : option (list Z)) (c : connection) : connection :=
  mk_connection
    (t c) (fd c) (host_from c) (scheme c) (host c) (port c) (addr_from c)
    (addr_to c) (tcp c) (method c) (path c) (headers c) (delay_min c)
    (delay_max c) (delayed c) (delayed_id c) (ramp_up c) (cstats c) (reqs_max
    c) (keep_alive_reqs c) (tls_session_reuse c) (req_body c) v
    (req_body_type c) (req_body_size c) (request c) (request_cclose c)
    (close_client c) (close_linger c) (close_linger_sec c) (cclose c)
    (header_cclose c) (request_length c) (request_cclose_length c)
    (message_complete c) (body c) (written c) (written_overhead c) (read c)
    (status c) (cookies c) (duplicate c).

Definition set_req_body_type (v : req_body_type_t) (c : connection) : connection :=
  mk_connection
    (t c) (fd c) (host_from c) (scheme c) (host c) (port c) (addr_from c)
    (addr_to c) (tcp c) (method c) (path c) (headers c) (delay_min c)
    (delay_max c) (delayed c) (delayed_id c) (ramp_up c) (cstats c) (reqs_max
    c) (keep_alive_reqs c) (tls_session_reuse c) (req_body c)
    (req_body_random c) v (req_body_size c) (request c) (request_cclose c)
    (close_client c) (close_linger c) (close_linger_sec c) (cclose c)
    (header_cclose c) (request_length c) (request_cclose_length c)
    (message_complete c) (body c) (written c) (written_overhead c) (read c)
    (status c) (cookies c) (duplicate c).

Definition set_req_body_size (v : Z) (c : connection) : connection :=
  mk_connection
    (t c) (fd c) (host_from c) (scheme c) (host c) (port c) (addr_from c)
    (addr_to c) (tcp c) (method c) (path c) (headers c) (delay_min c)
    (delay_max c) (delayed c) (delayed_id c) (ramp_up c) (cstats c) (reqs_max
    c) (keep_alive_reqs c) (tls_session_reuse c) (req_body c)
    (req_body_random c) (req_body_type c) v (request c) (request_cclose c)
    (close_client c) (close_linger c) (close_linger_sec c) (cclose c)
    (header_cclose c) (request_length c) (request_cclose_length c)
    (message_complete c) (body c) (written c) (written_overhead c) (read c)
    (status c) (cookies c) (duplicate c).

Definition set_request (v : option string) (c : connection) : connection :=
  mk_connection
    (t c) (fd c) (host_from c) (scheme c) (host c) (port c) (addr_from c)
    (addr_to c) (tcp c) (method c) (path c) (headers c) (delay_min c)
    (delay_max c) (delayed c) (delayed_id c) (ramp_up c) (cstats c) (reqs_max
    c) (keep_alive_reqs c) (tls_session_reuse c) (req_body c)
    (req_body_random c) (req_body_type c) (req_body_size c) v (request_cclose
    c) (close_client c) (close_linger c) (close_linger_sec c) (cclose c)
    (header_cclose c) (request_length c) (request_cclose_length c)
    (message_complete c) (body c) (written c) (written_overhead c) (read c)
    (status c) (cookies c) (duplicate c).

Definition set_request_cclose (v : option string) (c : connection) : connection :=
  mk_connection
    (t c) (fd c) (host_from c) (scheme c) (host c) (port c) (addr_from c)
    (addr_to c) (tcp c) (method c) (path c) (headers c) (delay_min c)
    (delay_max c) (delayed c) (delayed_id c) (ramp_up c) (cstats c) (reqs_max
    c) (keep_alive_reqs c) (tls_session_reuse c) (req_body c)
    (req_body_random c) (req_body_type c) (req_body_size c) (request c) v
    (close_client c) (close_linger c) (close_linger_sec c) (cclose c)
    (header_cclose c) (request_length c) (request_cclose_length c)
    (message_complete c) (body c) (written c) (written_overhead c) (read c)
    (status c) (cookies c) (duplicate c).

Definition set_close_client (v : bool) (c : connection) : connection :=
  mk_connection
    (t c) (fd c) (host_from c) (scheme c) (host c) (port c) (addr_from c)
    (addr_to c) (tcp c) (method c) (path c) (headers c) (delay_min c)
    (delay_max c) (delayed c) (delayed_id c) (ramp_up c) (cstats c) (reqs_max
    c) (keep_alive_reqs c) (tls_session_reuse c) (req_body c)
    (req_body_random c) (req_body_type c) (req_body_size c) (request c)
    (request_cclose c) v (close_linger c) (close_linger_sec c) (cclose c)
    (header_cclose c) (request_length c) (request_cclose_length c)
    (message_complete c) (body c) (written c) (written_overhead c) (read c)
    (status c) (cookies c) (duplicate c).

Definition set_close_linger (v : bool) (c : connection) : connection :=
  mk_connection
    (t c) (fd c) (host_from c) (scheme c) (host c) (port c) (addr_from c)
    (addr_to c) (tcp c) (method c) (path c) (headers c) (delay_min c)
    (delay_max c) (delayed c) (delayed_id c) (ramp_up c) (cstats c) (reqs_max
    c) (keep_alive_reqs c) (tls_session_reuse c) (req_body c)
    (req_body_random c) (req_body_type c) (req_body_size c) (request c)
    (request_cclose c) (close_client c) v (close_linger_sec c) (cclose c)
    (header_cclose c) (request_length c) (request_cclose_length c)
    (message_complete c) (body c) (written c) (written_overhead c) (read c)
    (status c) (cookies c) (duplicate c).

Definition set_close_linger_sec (v : Z) (c : connection) : connection :=
  mk_connection
    (t c) (fd c) (host_from c) (scheme c) (host c) (port c) (addr_from c)
    (addr_to c) (tcp c) (method c) (path c) (headers c) (delay_min c)
    (delay_max c) (delayed c) (delayed_id c) (ramp_up c) (cstats c) (reqs_max
    c) (keep_alive_reqs c) (tls_session_reuse c) (req_body c)
    (req_body_random c) (req_body_type c) (req_body_size c) (request c)
    (request_cclose c) (close_client c) (close_linger c) v (cclose c)
    (header_cclose c) (request_length c) (request_cclose_length c)
    (message_complete c) (body c) (written c) (written_overhead c) (read c)
    (status c) (cookies c) (duplicate c).

Definition set_request_length (v : Z) (c : connection) : connection :=
  mk_connection
    (t c) (fd c) (host_from c) (scheme c) (host c) (port c) (addr_from c)
    (addr_to c) (tcp c) (method c) (path c) (headers c) (delay_min c)
    (delay_max c) (delayed c) (delayed_id c) (ramp_up c) (cstats c) (reqs_max
    c) (keep_alive_reqs c) (tls_session_reuse c) (req_body c)
    (req_body_random c) (req_body_type c) (req_body_size c) (request c)
    (request_cclose c) (close_client c) (close_linger c) (close_linger_sec c)
    (cclose c) (header_cclose c) v (request_cclose_length c)
    (message_complete c) (body c) (written c) (written_overhead c) (read c)
    (status c) (cookies c) (duplicate c).

Definition set_request_cclose_length (v : Z) (c : connection) : connection :=
  mk_connection
    (t c) (fd c) (host_from c) (scheme c) (host c) (port c) (addr_from c)
    (addr_to c) (tcp c) (method c) (path c) (headers c) (delay_min c)
    (delay_max c) (delayed c) (delayed_id c) (ramp_up c) (cstats c) (reqs_max
    c) (keep_alive_reqs c) (tls_session_reuse c) (req_body c)
    (req_body_random c) (req_body_type c) (req_body_size c) (request c)
    (request_cclose c) (close_client c) (close_linger c) (close_linger_sec c)
    (cclose c) (header_cclose c) (request_length c) v (message_complete c)
    (body c) (written c) (written_overhead c) (read c) (status c) (cookies c)
    (duplicate c).

Definition set_duplicate (v : bool) (c : connection) : connection :=
  mk_connection
    (t c) (fd c) (host_from c) (scheme c) (host c) (port c) (addr_from c)
    (addr_to c) (tcp c) (method c) (path c) (headers c) (delay_min c)
    (delay_max c) (delayed c) (delayed_id c) (ramp_up c) (cstats c) (reqs_max
    c) (keep_alive_reqs c) (tls_session_reuse c) (req_body c)
    (req_body_random c) (req_body_type c) (req_body_size c) (request c)
    (request_cclose c) (close_client c) (close_linger c) (close_linger_sec c)
    (cclose c) (header_cclose c) (request_length c) (request_cclose_length c)
    (message_complete c) (body c) (written c) (written_overhead c) (read c)
    (status c) (cookies c) v.

(** ** json.h: parsed values

    An object keeps its members in input order, duplicates included. *)

Inductive json_type : Type :=
  | json_none | json_object | json_array | json_integer
  | json_double | json_string | json_boolean | json_null.

#[warnings="-register-all"]
Inductive json_value : Type :=
  | JObject (values : list (string * json_value))
  | JArray (values : list json_value)
  | JInteger (integer : Z)          (* json_int_t: 64 bits *)
  | JDouble (dbl : Q)
  | JString (ptr : string)
  | JBoolean (boolean : bool)
  | JNull.

Definition json_typeof (v : json_value) : json_type :=
  match v with
  | JObject _ => json_object
  | JArray _ => json_array
  | JInteger _ => json_integer
  | JDouble _ => json_double
  | JString _ => json_string
  | JBoolean _ => json_boolean
  | JNull => json_null
  end.

Definition json_type_eqb (a b : json_type) : bool :=
  match a, b with
  | json_none, json_none | json_object, json_object
  | json_array, json_array | json_integer, json_integer
  | json_double, json_double | json_string, json_string
  | json_boolean, json_boolean | json_null, json_null => true
  | _, _ => false
  end.

(** Members of the union [u]; each is read only after the type was
    checked, the other cases are fillers. *)
Definition u_object (v : json_value) : list (string * json_value) :=
  match v with JObject l => l | _ => [] end.
Definition u_array (v : json_value) : list json_value :=
  match v with JArray l => l | _ => [] end.
Definition u_integer (v : json_value) : Z :=
  match v with JInteger n => n | _ => 0 end.
Definition u_string (v : json_value) : string :=
  match v with JString s => s | _ => "" end.
Definition u_boolean (v : json_value) : bool :=
  match v with JBoolean b => b | _ => false end.

(** ** mb.h: client options *)

Record config : Type := mk_config {
  cfg_cookies : bool;
  cfg_duration : Z;              (* uint64_t, printed with PRIu64 *)
  cfg_file_req : option string;
  cfg_file_resp : option string;
  cfg_ramp_up : Z;               (* uint64_t, printed with PRIu64 *)
  cfg_ssl_version : Z;
  cfg_ssl : bool;
  cfg_threads : Z                (* uint64_t, printed with PRIu64 *)
}.

Definition set_cfg_cookies (v : bool) (g : config) : config :=
  mk_config v (cfg_duration g) (cfg_file_req g)
    (cfg_file_resp g) (cfg_ramp_up g) (cfg_ssl_version g) (cfg_ssl g) (cfg_threads g).
Definition set_cfg_duration (v : Z) (g : config) : config :=
  mk_config (cfg_cookies g) v (cfg_file_req g)
    (cfg_file_resp g) (cfg_ramp_up g) (cfg_ssl_version g) (cfg_ssl g) (cfg_threads g).
Definition set_cfg_file_req (v : option string) (g : config) : config :=
  mk_config (cfg_cookies g) (cfg_duration g) v
    (cfg_file_resp g) (cfg_ramp_up g) (cfg_ssl_version g) (cfg_ssl g) (cfg_threads g).
Definition set_cfg_file_resp (v : option string) (g : config) : config :=
  mk_config (cfg_cookies g) (cfg_duration g) (cfg_file_req g) v
    (cfg_ramp_up g) (cfg_ssl_version g) (cfg_ssl g) (cfg_threads g).
Definition set_cfg_ramp_up (v : Z) (g : config) : config :=
  mk_config (cfg_cookies g) (cfg_duration g) (cfg_file_req g)
    (cfg_file_resp g) v (cfg_ssl_version g) (cfg_ssl g) (cfg_threads g).
Definition set_cfg_ssl_version (v : Z) (g : config) : config :=
  mk_config (cfg_cookies g) (cfg_duration g) (cfg_file_req g)
    (cfg_file_resp g) (cfg_ramp_up g) v (cfg_ssl g) (cfg_threads g).
Definition set_cfg_ssl (v : bool) (g : config) : config :=
  mk_config (cfg_cookies g) (cfg_duration g) (cfg_file_req g)
    (cfg_file_resp g) (cfg_ramp_up g) (cfg_ssl_version g) v (cfg_threads g).
Definition set_cfg_threads (v : Z) (g : config) : config :=
  mk_config (cfg_cookies g) (cfg_duration g) (cfg_file_req g)
    (cfg_file_resp g) (cfg_ramp_up g) (cfg_ssl_version g) (cfg_ssl g) v.

(** ** Process state and the monad of fallible start-up code *)

(** merr.h message classes; [s_plain] is text written with [fprintf]. *)
Inductive severity : Type :=
  s_info | s_warning | s_error | s_fatal | s_plain.

(** What start-up code can change besides the connection it fills in:
    the global [cfg] and the diagnostics written so far (latest first).
    A diagnostic is recorded by its format string, arguments are not
    rendered. *)
Record world : Type := mk_world {
  cfg : config;
  diagnostics : list (severity * string)
}.

Inductive outcome (A : Type) : Type :=
  | Ok (a : A) (w : world)
  | Exit (status : Z) (w : world).
Arguments Ok {A} a w.
Arguments Exit {A} status w.

Definition M (A : Type) : Type := world -> outcome A.

Definition ret {A} (a : A) : M A := fun w => Ok a w.

Definition bind {A B} (m : M A) (k : A -> M B) : M B :=
  fun w => match m w with
           | Ok a w' => k a w'
           | Exit st w' => Exit st w'
           end.

Notation "x <- m ;; k" := (bind m (fun x => k))
  (at level 90, m at level 80, right associativity).
Notation "m ;;; k" := (bind m (fun _ => k))
  (at level 90, right associativity).

Definition report (s : severity) (msg : string) (w : world) : world :=
  mk_world (cfg w) ((s, msg) :: diagnostics w).

(** merr.h *)
Definition die {A} (status : Z) (msg : string) : M A :=
  fun w => Exit status (report s_fatal msg w).
Definition warning (msg : string) : M unit :=
  fun w => Ok tt (report s_warning msg w).
Definition error (msg : string) : M unit :=
  fun w => Ok tt (report s_error msg w).

Definition modify_cfg (f : config -> config) : M unit :=
  fun w => Ok tt (mk_world (f (cfg w)) (diagnostics w)).

(** The diagnostic a run ended with. *)
Definition died_with {A} (o : outcome A) (msg : string) : Prop :=
  exists st w, o = Exit st w /\ st <> 0 /\
               head (diagnostics w) = Some (s_fatal, msg).

(** A [for (i = 0; i < length; i++)] loop over the members of an object,
    threading the loop state [s]. *)
Fixpoint object_loop {S : Type}
    (step : Z -> string -> json_value -> S -> M S)
    (i : Z) (values : list (string * json_value)) (s : S) : M S :=
  match values with
  | [] => ret s
  | (k, v) :: rest => s' <- step i k v s ;; object_loop step (i + 1) rest s'
  end.

(** ** Collaborators that live outside mb.c

    Constants of [mb.h], the generator of [mcg.h], the functions that
    [net.h] declares and [net.c] defines, and [strtol]: they are taken
    as parameters, so every property below holds whatever they are. *)
Class Externals : Type := {
  MB_MAX_CLIENTS : Z;                               (* mb.h *)
  MB_CFG_COOKIES : bool;                            (* mb.h *)
  MB_CFG_DURATION : Z;                              (* mb.h *)
  MB_TLS_VERSION : Z;                               (* mb.h *)
  HAVE_SSL : bool;                                  (* build switch *)
  strtol : string -> Z * string;
      (* libc, base 0: the value and the unparsed rest [p_err] *)
  connection_init : connection;                     (* net.c: the defaults *)
  host_resolve : string -> Z -> option addrinfo;    (* net.c: None when < 0 *)
  http_requests_build : connection -> string * string;
      (* net.c: the two serialized requests of http_requests_create *)
  socket_connect : connection -> connection;
      (* net.c: what the first connect attempt does to the record *)
  mcg64_seed : Z -> Z;                              (* mcg.h, on the state *)
  mcg64cpy : Z -> Z -> list Z                       (* mcg.h: state, length *)
}.

Section Loader.
Context `{E : Externals}.

(** ** mb.c: the request template loader *)

(** [json_check_value]: members of a parsed object are never [NULL], so
    only the type test remains. *)
Definition json_check_value (v : json_value) (type : json_type)
    (err : string) : M unit :=
  if json_type_eqb (json_typeof v) type then ret tt
  else die EXIT_FAILURE ("invalid input request file: " ++ err).

Definition set_keep_alive (f : keep_alive_t -> keep_alive_t)
    (c : connection) : connection :=
  set_tcp (mk_tcp (f (keep_alive (tcp c)))) c.

Definition json_process_connection_tcp_keep_alive (value : json_value)
    (c : connection) : M connection :=
  object_loop (fun _ k v c =>
    if String.eqb k "enable" then
      json_check_value v json_boolean "boolean expected for tcp.keep-alive.enable" ;;;
      ret (set_keep_alive (fun a => mk_keep_alive (u_boolean v) (idle a) (intvl a) (cnt a)) c)
    else if String.eqb k "idle" then
      json_check_value v json_integer "integer expected for tcp.keep-alive.idle" ;;;
      ret (set_keep_alive (fun a => mk_keep_alive (enable a) (to_int (u_integer v)) (intvl a) (cnt a)) c)
    else if String.eqb k "intvl" then
      json_check_value v json_integer "integer expected for tcp.keep-alive.intvl" ;;;
      ret (set_keep_alive (fun a => mk_keep_alive (enable a) (idle a) (to_int (u_integer v)) (cnt a)) c)
    else if String.eqb k "cnt" then
      json_check_value v json_integer "integer expected for tcp.keep-alive.cnt" ;;;
      ret (set_keep_alive (fun a => mk_keep_alive (enable a) (idle a) (intvl a) (to_int (u_integer v))) c)
    else die EXIT_FAILURE "invalid input request file, key tcp.keep-alive.%s")
  0 (u_object value) c.

Definition json_process_connection_tcp (value : json_value)
    (c : connection) : M connection :=
  object_loop (fun _ k v c =>
    if String.eqb k "keep-alive" then
      if json_type_eqb (json_typeof v) json_object
      then json_process_connection_tcp_keep_alive v c
      else die EXIT_FAILURE "invalid input request file, tcp not an object"
    else die EXIT_FAILURE "invalid input request file, key tcp.%s")
  0 (u_object value) c.

(** The loop state of [json_process_connection_headers] is the array
    being filled; a member that is not a string stops the loader. *)
Definition json_process_connection_headers (value : json_value)
    (c : connection) : M connection :=
  kvs <- object_loop (fun _ k v (acc : list key_value) =>
           json_check_value v json_string "string expected for headers" ;;;
           ret (acc ++ [mk_key_value k (u_string v)])%list)
         0 (u_object value) [] ;;
  ret (set_headers (Some kvs) c).

(** One turn of the key loop of [json_process_connection_body]
    (lines 322-340). *)
Definition json_process_connection_body_key (_ : Z) (k : string)
    (v : json_value) (c : connection) : M connection :=
  if String.eqb k "content" then
    json_check_value v json_string "string expected for body.content" ;;;
    ret (set_req_body (Some (u_string v)) c)
  else if String.eqb k "size" then
    json_check_value v json_integer "integer expected for body.size" ;;;
    ret (set_req_body_size (to_uint64 (u_integer v)) c)
  else if String.eqb k "type" then
    json_check_value v json_string "string expected for body.type" ;;;
    if String.eqb (u_string v) "random" then ret (set_req_body_type body_random c)
    else if String.eqb (u_string v) "content" then ret (set_req_body_type body_content c)
    else die EXIT_FAILURE "invalid body type: `%s'"
  else die EXIT_FAILURE "invalid input request file, key body.%s".

(** The key loop (lines 321-341). *)
Definition json_process_connection_body_keys (value : json_value)
    (c : connection) : M connection :=
  object_loop json_process_connection_body_key 0 (u_object value) c.

Definition body_content_ignored : string :=
  "request body content provided but body random type specified; ignoring request's body.content".
Definition body_size_zero : string :=
  "request's body.size cannot be 0 when request's body random type is specified".

(** The checks that follow the key loop (lines 343-352). *)
Definition json_process_connection_body_checks (c : connection)
    : M connection :=
  match req_body_type c with
  | body_random =>
      c <- match req_body c with
           | Some _ => warning body_content_ignored ;;; ret (set_req_body None c)
           | None => ret c
           end ;;
      if req_body_size c =? 0 then die EXIT_FAILURE body_size_zero
      else ret c
  | body_content => ret c
  end.

Definition json_process_connection_body (value : json_value)
    (c : connection) : M connection :=
  c <- json_process_connection_body_keys value c ;;
  json_process_connection_body_checks c.

Definition json_process_connection_delay (value : json_value)
    (c : connection) : M connection :=
  c <- object_loop (fun _ k v c =>
         if String.eqb k "min" then
           json_check_value v json_integer "integer expected for delay.min" ;;;
           ret (set_delay_min (to_uint64 (u_integer v)) c)
         else if String.eqb k "max" then
           json_check_value v json_integer "integer expected for delay.max" ;;;
           ret (set_delay_max (to_uint64 (u_integer v)) c)
         else die EXIT_FAILURE "invalid input request file, key delay.%s")
       0 (u_object value) c ;;
  if delay_min c >? delay_max c
  then die EXIT_FAILURE "invalid input request file, delay.min (%PRIu64) > delay.max (%PRIu64)"
  else ret c.

Definition json_process_connection_close (value : json_value)
    (c : connection) : M connection :=
  object_loop (fun _ k v c =>
    if String.eqb k "client" then
      json_check_value v json_boolean "boolean expected for close.client" ;;;
      ret (set_close_client (u_boolean v) c)
    else if String.eqb k "linger" then
      json_check_value v json_integer "integer expected for close.linger" ;;;
      ret (set_close_linger_sec (to_uint64 (u_integer v)) (set_close_linger true c))
    else die EXIT_FAILURE "invalid input request file, key close.%s")
  0 (u_object value) c.

(** [request_initialize_body_random]: [random_bytes_alloc] bytes drawn
    from the generator seeded with [i * 2]. *)
Definition random_bytes_alloc (c : connection) : Z :=
  let n := if req_body_size c >? MAX_REQ_LEN then MAX_REQ_LEN
           else req_body_size c in
  n + NUM2HEX_DIGITS n + 9.

Definition request_initialize_body_random (c : connection) (i : Z)
    : connection :=
  let state := i * 2 in
  let state := mcg64_seed state in
  set_req_body_random (Some (mcg64cpy state (random_bytes_alloc c))) c.

(** [http_requests_create] stores the two serialized requests and their
    lengths. *)
Definition http_requests_create (c : connection) : connection :=
  let '(r, rc) := http_requests_build c in
  set_request_cclose_length (Z.of_nat (String.length rc))
    (set_request_length (Z.of_nat (String.length r))
      (set_request_cclose (Some rc) (set_request (Some r) c))).

Definition too_many_clients : string :=
  "too many clients specified for a request (%d > %d)".
Definition host_not_defined : string :=
  "invalid input request file, host not defined".
Definition port_not_defined : string :=
  "invalid input request file, port not defined".

(** One iteration of the key loop of [json_process_connection]; [i] is
    the loop counter, the loop state is the connection and [clients]. *)
Definition json_process_connection_key (i : Z) (k : string) (v : json_value)
    (s : connection * Z) : M (connection * Z) :=
  let '(c, clients) := s in
  if String.eqb k "tcp" then
    if json_type_eqb (json_typeof v) json_object
    then c <- json_process_connection_tcp v c ;; ret (c, clients)
    else die EXIT_FAILURE "invalid input request file, tcp not an object"
  else if String.eqb k "delay" then
    if json_type_eqb (json_typeof v) json_object
    then c <- json_process_connection_delay v c ;; ret (c, clients)
    else die EXIT_FAILURE "invalid input request file, delay not an object"
  else if String.eqb k "headers" then
    if json_type_eqb (json_typeof v) json_object
    then c <- json_process_connection_headers v c ;; ret (c, clients)
    else die EXIT_FAILURE "invalid input request file, headers not an object"
  else if String.eqb k "body" then
    if json_type_eqb (json_typeof v) json_object then
      c <- json_process_connection_body v c ;;
      ret (match req_body_type c with
           | body_random => request_initialize_body_random c i
           | body_content => c
           end, clients)
    else if json_type_eqb (json_typeof v) json_string then
      warning "using string type for request body is deprecated, please change your input request file" ;;;
      ret (set_req_body (Some (u_string v)) c, clients)
    else die EXIT_FAILURE "invalid input request file, headers not an object"
  else if String.eqb k "close" then
    if json_type_eqb (json_typeof v) json_object
    then c <- json_process_connection_close v c ;; ret (c, clients)
    else die EXIT_FAILURE "invalid input request file, close not an object"
  else if String.eqb k "host_from" then
    json_check_value v json_string "string expected for host_from" ;;;
    ret (set_host_from (Some (u_string v)) c, clients)
  else if String.eqb k "host" then
    json_check_value v json_string "string expected for host" ;;;
    ret (set_host (Some (u_string v)) c, clients)
  else if String.eqb k "port" then
    json_check_value v json_integer "integer expected for port" ;;;
    ret (set_port (to_int (u_integer v)) c, clients)
  else if String.eqb k "scheme" then
    json_check_value v json_string "string expected for scheme" ;;;
    if String.eqb (u_string v) "http" then ret (set_scheme http c, clients)
    else if String.eqb (u_string v) "https" then
      (if HAVE_SSL then ret tt
       else die EXIT_FAILURE "ssl support not compiled in") ;;;
      modify_cfg (set_cfg_ssl true) ;;;
      ret (set_scheme https c, clients)
    else die EXIT_FAILURE "invalid scheme %s"
  else if String.eqb k "method" then
    json_check_value v json_string "string expected for method" ;;;
    ret (set_method (Some (u_string v)) c, clients)
  else if String.eqb k "path" then
    json_check_value v json_string "string expected for path" ;;;
    ret (set_path (Some (u_string v)) c, clients)
  else if String.eqb k "max-requests" then
    json_check_value v json_integer "integer expected for max-requests" ;;;
    let c := set_reqs_max (to_uint64 (u_integer v)) c in
    if reqs_max c <? 0 then die EXIT_FAILURE "max-requests must be >= 0"
    else ret (c, clients)
  else if String.eqb k "keep-alive-requests" then
    json_check_value v json_integer "integer expected for keep-alive-requests" ;;;
    let c := set_keep_alive_reqs (to_uint64 (u_integer v)) c in
    if keep_alive_reqs c <? 0 then die EXIT_FAILURE "keep-alive-requests must be >= 0"
    else ret (c, clients)
  else if String.eqb k "tls-session-reuse" then
    json_check_value v json_boolean "boolean expected for tls-session-reuse" ;;;
    ret (set_tls_session_reuse (u_boolean v) c, clients)
  else if String.eqb k "clients" then
    json_check_value v json_integer "integer expected for clients" ;;;
    let clients := to_int (u_integer v) in
    if clients >? MB_MAX_CLIENTS then die EXIT_FAILURE too_many_clients
    else ret (c, clients)
  else if String.eqb k "ramp-up" then
    json_check_value v json_integer "integer expected for ramp-up time" ;;;
    ret (set_ramp_up (to_uint64 (u_integer v)) c, clients)
  else die EXIT_FAILURE "invalid input request file, key %s".

(** The part of [json_process_connection] after the key loop
    (lines 530-554). *)
Definition json_process_connection_finish (s : connection * Z)
    : M (Z * connection) :=
  let '(c, clients) := s in
  match host c with
  | None => die EXIT_FAILURE host_not_defined
  | Some h =>
    if port c =? 0 then die EXIT_FAILURE port_not_defined
    else
      c <- match addr_to c with
           | Some _ => ret c
           | None =>
               match host_resolve h (port c) with
               | Some a => ret (set_addr_to (Some a) c)
               | None => die EXIT_FAILURE "cannot resolve: %s:%d"
               end
           end ;;
      c <- match host_from c with
           | Some hf =>
               match host_resolve hf 0 with
               | Some a => ret (set_addr_from (Some a) c)
               | None => die EXIT_FAILURE "cannot resolve: %s"
               end
           | None => ret c
           end ;;
      ret (clients, http_requests_create c)
  end.

(** The key loop alone: the connection starts from the defaults and
    [clients] from 1. *)
Definition json_process_connection_keys (value : json_value)
    : M (connection * Z) :=
  object_loop json_process_connection_key 0 (u_object value)
    (connection_init, 1).

(** [json_process_connection]: [slot] is what [*c] holds on entry; the
    result is the return value and what [*c] holds on return. *)
Definition json_process_connection (value : json_value)
    (slot : option connection) : M (Z * option connection) :=
  if json_type_eqb (json_typeof value) json_object then
    s <- json_process_connection_keys value ;;
    r <- json_process_connection_finish s ;;
    ret (fst r, Some (snd r))
  else ret (-1, slot).

(** A [for (i = 0; i < length; i++)] loop over the elements of an
    array. *)
Fixpoint array_loop {S : Type} (step : Z -> json_value -> S -> M S)
    (i : Z) (values : list json_value) (s : S) : M S :=
  match values with
  | [] => ret s
  | v :: rest => s' <- step i v s ;; array_loop step (i + 1) rest s'
  end.

(** The locals of [json_process_connections]: the array [cs] (a slot is
    [None] until something is stored in it), the cursor [c] as an index
    into [cs], and the running count [connections]. *)
Record loader_state : Type := mk_loader_state {
  ld_cs : list (option connection);
  ld_c : Z;
  ld_connections : Z
}.

(** Lines 587-593: what the slot [c + j] holds after the copy. *)
Definition duplicate_connection (c : connection) (j : Z) : connection :=
  let cs_ptr := c in
  let cs_ptr := match req_body_type cs_ptr with
                | body_random => request_initialize_body_random cs_ptr j
                | body_content => cs_ptr
                end in
  let cs_ptr := set_request None cs_ptr in
  let cs_ptr := set_request_cclose None cs_ptr in
  let cs_ptr := http_requests_create cs_ptr in
  set_duplicate true cs_ptr.

(** Lines 577-599: what follows a call that returned [ret >= 0] and left
    [slot] in [cs\[c\]]. *)
Definition json_process_connections_expand (ret_ : Z)
    (slot : option connection) (s : loader_state) : loader_state :=
  if ret_ >? 1 then
    let offset := ld_c s in
    let connections := ld_connections s + (ret_ - 1) in
    let cs := resize (Z.to_nat (connections + 1)) None (ld_cs s) in
    let cs := match slot with
              | Some c =>
                  foldl (fun cs j =>
                           <[Z.to_nat (offset + j) := Some (duplicate_connection c j)]> cs)
                        cs (seqZ 1 (ret_ - 1))
              | None => cs
              end in
    mk_loader_state cs (offset + ret_) connections
  else
    mk_loader_state (ld_cs s) (ld_c s + ret_) (ld_connections s).

Definition json_process_connections_step (i : Z) (v : json_value)
    (s : loader_state) : M loader_state :=
  if negb (json_type_eqb (json_typeof v) json_object)
  then die EXIT_FAILURE "invalid input request file"
  else
    r <- json_process_connection v (mjoin (ld_cs s !! Z.to_nat (ld_c s))) ;;
    let '(ret_, slot) := r in
    let s := mk_loader_state (<[Z.to_nat (ld_c s) := slot]> (ld_cs s))
                             (ld_c s) (ld_connections s) in
    if ret_ <? 0 then die EXIT_FAILURE "invalid input request file (array %d)"
    else ret (json_process_connections_expand ret_ slot s).

(** [json_process_connections], started on the array [cs] allocated by
    the caller; returns the final array together with the count. *)
Definition json_process_connections (value : json_value)
    (cs : list (option connection)) : M (list (option connection) * Z) :=
  let length := Z.of_nat (List.length (u_array value)) in
  if length =? 0
  then die EXIT_FAILURE "no requests found in the input request file"
  else
    s <- array_loop json_process_connections_step 0 (u_array value)
           (mk_loader_state cs 0 length) ;;
    ret (ld_cs s, ld_connections s).

(** [requests_read] from the point where the file has been parsed into
    [value]. The slot after the last connection, whose [t] is set to
    [NULL] at line 664, stays an unwritten slot here. *)
Definition requests_read (value : json_value)
    : M (list (option connection) * Z) :=
  if negb (json_type_eqb (json_typeof value) json_array)
  then die EXIT_FAILURE "invalid input request file"
  else
    let cs := replicate (S (List.length (u_array value))) None in
    json_process_connections value cs.

(** ** mb.c: command line *)

Definition get_cfg : M config := fun w => Ok (cfg w) w.

Definition exit_ {A} (status : Z) : M A := fun w => Exit status w.

(** [usage]: prints the help text and leaves unless [ret < 0]. *)
Definition usage (ret_ : Z) : M unit :=
  fun w => let w := report s_plain "Usage: mb <options>" w in
           if ret_ >=? 0 then Exit ret_ w else Ok tt w.

(** [p_err == optarg || *p_err] *)
Definition strtol_failed (optarg p_err : string) : bool :=
  String.eqb p_err optarg || negb (String.eqb p_err "").

(** [optarg\[0\] == '-'] *)
Definition starts_with_minus (optarg : string) : bool :=
  match optarg with
  | String a _ => Ascii.eqb a "-"
  | EmptyString => false
  end.

Definition ramp_up_ge_duration : string :=
  "ramp-up time (%PRIu64) >= test duration (%PRIu64)".

(** The body of the [switch] for one value [c] returned by
    [getopt_long], with its [optarg]. *)
Definition args_parse_option (o : ascii * string) : M unit :=
  let '(c, optarg) := o in
  if Ascii.eqb c "c" then modify_cfg (set_cfg_cookies true)
  else if Ascii.eqb c "d" then
    let '(n, p_err) := strtol optarg in
    modify_cfg (set_cfg_duration (to_uint64 n)) ;;;
    (if strtol_failed optarg p_err
     then die EXIT_FAILURE "duration: `%s' not an integer" else ret tt) ;;;
    g <- get_cfg ;;
    if (cfg_duration g <=? 0) || starts_with_minus optarg
    then die EXIT_FAILURE "duration must be > 0" else ret tt
  else if Ascii.eqb c "i" then modify_cfg (set_cfg_file_req (Some optarg))
  else if Ascii.eqb c "o" then modify_cfg (set_cfg_file_resp (Some optarg))
  else if Ascii.eqb c "r" then
    let '(n, p_err) := strtol optarg in
    modify_cfg (set_cfg_ramp_up (to_uint64 n)) ;;;
    (if strtol_failed optarg p_err
     then die EXIT_FAILURE "ramp-up: `%s' not an integer" else ret tt) ;;;
    g <- get_cfg ;;
    if (cfg_ramp_up g <? 0) || starts_with_minus optarg
    then die EXIT_FAILURE "ramp-up must be > 0" else ret tt
  else if Ascii.eqb c "s" then
    let '(n, p_err) := strtol optarg in
    modify_cfg (set_cfg_ssl_version (to_int n)) ;;;
    (if strtol_failed optarg p_err
     then die EXIT_FAILURE "ssl-version: `%s' not an integer" else ret tt) ;;;
    g <- get_cfg ;;
    if (cfg_ssl_version g <? 0) || (cfg_ssl_version g >? 4)
       || starts_with_minus optarg
    then die EXIT_FAILURE "ssl-version must be >= 0 and <= 4" else ret tt
  else if Ascii.eqb c "t" then
    let '(n, p_err) := strtol optarg in
    modify_cfg (set_cfg_threads (to_uint64 n)) ;;;
    (if strtol_failed optarg p_err
     then die EXIT_FAILURE "threads: `%s' not an integer" else ret tt) ;;;
    g <- get_cfg ;;
    if (cfg_threads g <=? 0) || starts_with_minus optarg
    then die EXIT_FAILURE "number of threads must be > 0" else ret tt
  else if Ascii.eqb c "h" then usage EXIT_SUCCESS
  else if Ascii.eqb c "q" then ret tt
  else if Ascii.eqb c "v" then exit_ EXIT_SUCCESS
  else usage EXIT_FAILURE.

Fixpoint args_parse_options (opts : list (ascii * string)) : M unit :=
  match opts with
  | [] => ret tt
  | o :: rest => args_parse_option o ;;; args_parse_options rest
  end.

(** Lines 675-681. [cfg.threads] was set by [mb_threads_auto] and is
    kept. *)
Definition args_parse_defaults (g : config) : config :=
  mk_config MB_CFG_COOKIES MB_CFG_DURATION None None 0 MB_TLS_VERSION
    false (cfg_threads g).

(** Lines 755-765: the checks that follow the option loop. *)
Definition args_parse_checks : M Z :=
  g <- get_cfg ;;
  (if cfg_ramp_up g >=? cfg_duration g
   then error ramp_up_ge_duration ;;; usage EXIT_FAILURE
   else ret tt) ;;;
  (match cfg_file_req g with
   | None => error "need to specify an input requests file" ;;;
             usage EXIT_FAILURE
   | Some _ => ret tt
   end) ;;;
  ret 0.

(** [args_parse]; [opts] is what the successive calls of [getopt_long]
    return for [argv]. The parser callback installed at line 752 is not
    part of the state. *)
Definition args_parse (opts : list (ascii * string)) : M Z :=
  modify_cfg args_parse_defaults ;;;
  args_parse_options opts ;;;
  args_parse_checks.

(** ** mb.c: worker threads *)

(** Lines 834-837 of [threads_start]. *)
Definition threads_cap (connections threads : Z) : Z :=
  if threads >? connections then connections else threads.

(** Lines 786-789 of [thread_main]: the bounds of the slice, as indices
    into [cs]. [connections] is an [int], [cfg.threads] and the products
    are [uint64_t]. *)
Definition connections_per_thread (connections threads : Z) : Z :=
  if connections >? threads then to_uint64 (connections / threads) else 1.

Definition cs_ptr_start (connections threads id : Z) : Z :=
  to_uint64 (connections_per_thread connections threads * id).

Definition cs_ptr_end (connections threads id : Z) : Z :=
  if id =? to_uint64 (threads - 1) then connections
  else to_uint64 (connections_per_thread connections threads * (id + 1)).

(** The indices visited by the loop of lines 804-808; none when the
    thread leaves at line 791. *)
Definition thread_slice (connections threads id : Z) : list Z :=
  if id >=? connections then []
  else seqZ (cs_ptr_start connections threads id)
            (cs_ptr_end connections threads id
             - cs_ptr_start connections threads id).

(** Lines 805-806: the two assignments; [delayed] is a [bool]. *)
Definition thread_main_assign (id : Z) (c : connection) : connection :=
  set_delayed (negb (delay_max c =? 0)) (set_t (Some id) c).

(** The loop of lines 804-808 on an initialised array. *)
Definition thread_main_setup (cs : list connection)
    (connections threads id : Z) : list connection :=
  foldl (fun cs n =>
           alter (fun c => socket_connect (thread_main_assign id c))
                 (Z.to_nat n) cs)
        cs (thread_slice connections threads id).

End Loader.

(** The state a run of start-up code ends in. *)
Definition outcome_world {A} (o : outcome A) : world :=
  match o with Ok _ w => w | Exit _ w => w end.

(** ** mb.c: the final report *)

Definition iec_suffix : list (option string) :=
  [Some "B"; Some "kiB"; Some "MiB"; Some "GiB"; Some "TiB"; Some "PiB";
   Some "EiB"; Some "ZiB"; Some "YiB"; None].

Definition base : Q := 1024.

(** [if ( *suffix_ptr) suffix_ptr++] *)
Definition suffix_next (suffix_ptr : nat) : nat :=
  match nth suffix_ptr iec_suffix None with
  | Some _ => S suffix_ptr
  | None => suffix_ptr
  end.

(** The loop of [format_bytes] (lines 152-155). [n] is a [long double];
    dividing by 1024 only lowers the exponent, so the values are exact
    and rationals stand for them. *)
Fixpoint format_bytes_loop (fuel : nat) (n : Q) (suffix_ptr : nat)
    : Q * nat :=
  match fuel with
  | O => (n, suffix_ptr)
  | S fuel =>
      if Qle_bool n base then (n, suffix_ptr)
      else format_bytes_loop fuel (n / base) (suffix_next suffix_ptr)
  end.

(** More iterations than the loop can take: every turn removes ten bits
    from a value bounded by its numerator. *)
Definition format_bytes_fuel (n : Q) : nat :=
  S (Z.to_nat (Z.log2 (Qnum n))).

Definition format_bytes_scale (n : Q) : Q * nat :=
  format_bytes_loop (format_bytes_fuel n) n 0.

Definition decimal (z : Z) : string :=
  NilZero.string_of_uint (N.to_uint (Z.to_N z)).

(** Rounding to the nearest integer, ties to even, as [printf] rounds
    the exact value. *)
Definition round_half_even (q : Q) : Z :=
  let f := Qfloor q in
  match Qcompare (q - inject_Z f) (1 # 2) with
  | Lt => f
  | Gt => f + 1
  | Eq => if Z.even f then f else f + 1
  end.

(** ["%0.2Lf"] for a value that is not negative. *)
Definition format_0_2Lf (n : Q) : string :=
  let h := round_half_even (n * 100) in
  let d := h mod 100 in
  decimal (h / 100) ++ "." ++ (if d <? 10 then "0" else "") ++ decimal d.

(** [format_bytes]: the text left in [dst]; [snprintf] keeps at most ten
    characters. A [NULL] suffix is printed the way glibc prints it. *)
Definition format_bytes (n : Q) : string :=
  let '(n, suffix_ptr) := format_bytes_scale n in
  substring 0 10
    (format_0_2Lf n ++
     match nth suffix_ptr iec_suffix None with
     | Some s => s
     | None => "(null)"
     end).

(** The accumulators of [stats_print] after the loop of lines 173-177. *)
Record totals : Type := mk_totals {
  tot_reqs : Z;
  tot_sent_bytes : Z;
  tot_recv_bytes : Z
}.

Definition stats_print_loop (cs : list connection) (connections : Z)
    : totals :=
  foldl (fun acc cs_ptr =>
           mk_totals
             (to_uint64 (tot_reqs acc + reqs_total (cstats cs_ptr)))
             (to_uint64 (tot_sent_bytes acc + written_total (cstats cs_ptr)))
             (to_uint64 (tot_recv_bytes acc + read_total (cstats cs_ptr))))
        (mk_totals 0 0 0) (take (Z.to_nat connections) cs).

(** What [stats_print] writes of the totals: the number after ["Hits: "]
    and the texts after ["Sent: "] and ["Recv: "]. The rates, quotients
    by the measured duration, are left out. *)
Record printed : Type := mk_printed {
  printed_sent : string;
  printed_recv : string;
  printed_hits : Z
}.

Definition stats_print (cs : list connection) (connections : Z) : printed :=
  let s := stats_print_loop cs connections in
  mk_printed (format_bytes (inject_Z (tot_sent_bytes s)))
             (format_bytes (inject_Z (tot_recv_bytes s)))
             (tot_reqs s).

(** The exact sums the counters stand for. *)
Definition sum_of (f : cstats_t -> Z) (cs : list connection) : Z :=
  foldr (fun c acc => f (cstats c) + acc) 0 cs.

(** ** mb.c: the [run] counter

    [threads_start] stores [connections] in [run] (line 852) and then
    creates the workers (line 856); a worker that retires a connection
    calls [requests_done], which takes [run_lock], reads [run], writes
    it back less one, and releases the lock. The steps of the threads
    interleave freely. *)

Inductive worker_pc : Type :=
  | W_idle               (* outside requests_done *)
  | W_lock               (* in pthread_mutex_lock *)
  | W_load               (* lock held, run not yet read *)
  | W_store (tmp : Z)    (* lock held, run read, not yet written *)
  | W_unlock.            (* run written, lock still held *)

Inductive main_pc : Type :=
  | Main_start           (* before line 852 *)
  | Main_create.         (* run set, creating the workers *)

Record run_state : Type := mk_run_state {
  run : Z;
  run_lock : option Z;           (* the holder of the mutex *)
  main : main_pc;
  created : Z;                   (* workers created so far *)
  workers : Z -> worker_pc;
  calls_done : Z                 (* calls of requests_done that returned *)
}.

Definition run_initial : run_state :=
  mk_run_state 0 None Main_start 0 (fun _ => W_idle) 0.

Definition set_worker (tid : Z) (p : worker_pc) (f : Z -> worker_pc)
    : Z -> worker_pc :=
  fun x => if x =? tid then p else f x.

Inductive run_step (connections threads : Z)
    : run_state -> run_state -> Prop :=
  | step_init s :
      main s = Main_start ->
      run_step connections threads s
        (mk_run_state connections (run_lock s) Main_create (created s)
                      (workers s) (calls_done s))
  | step_create s :
      main s = Main_create -> created s < threads ->
      run_step connections threads s
        (mk_run_state (run s) (run_lock s) (main s) (created s + 1)
                      (workers s) (calls_done s))
  | step_call s tid :
      0 <= tid < created s -> workers s tid = W_idle ->
      run_step connections threads s
        (mk_run_state (run s) (run_lock s) (main s) (created s)
                      (set_worker tid W_lock (workers s)) (calls_done s))
  | step_lock s tid :
      workers s tid = W_lock -> run_lock s = None ->
      run_step connections threads s
        (mk_run_state (run s) (Some tid) (main s) (created s)
                      (set_worker tid W_load (workers s)) (calls_done s))
  | step_load s tid :
      workers s tid = W_load ->
      run_step connections threads s
        (mk_run_state (run s) (run_lock s) (main s) (created s)
                      (set_worker tid (W_store (run s)) (workers s))
                      (calls_done s))
  | step_store s tid tmp :
      workers s tid = W_store tmp -> INT_MIN < tmp ->
      run_step connections threads s
        (mk_run_state (tmp - 1) (run_lock s) (main s) (created s)
                      (set_worker tid W_unlock (workers s)) (calls_done s))
  | step_unlock s tid :
      workers s tid = W_unlock ->
      run_step connections threads s
        (mk_run_state (run s) None (main s) (created s)
                      (set_worker tid W_idle (workers s))
                      (calls_done s + 1)).

Inductive run_reachable (connections threads : Z) : run_state -> Prop :=
  | reach_initial : run_reachable connections threads run_initial
  | reach_step s s' :
      run_reachable connections threads s ->
      run_step connections threads s s' ->
      run_reachable connections threads s'.

(** Whether a worker is between taking and releasing [run_lock]. *)
Definition in_critical (p : worker_pc) : bool :=
  match p with
  | W_load | W_store _ | W_unlock => true
  | W_idle | W_lock => false
  end.

(** Calls whose [run--] has been carried out: those that returned and
    the one, if any, that has written [run] and still holds the lock. *)
Definition decrements (s : run_state) : Z :=
  calls_done s +
  match run_lock s with
  | Some h => match workers s h with W_unlock => 1 | _ => 0 end
  | None => 0
  end.

(** ** An instance of the collaborators

    Used to run the definitions on concrete inputs. *)

(** Reads leading decimal digits. *)
Fixpoint sample_digits (s : string) (acc : Z) : Z * string :=
  match s with
  | String a rest =>
      let d := Z.of_nat (nat_of_ascii a) - 48 in
      if (0 <=? d) && (d <=? 9) then sample_digits rest (acc * 10 + d)
      else (acc, s)
  | EmptyString => (acc, s)
  end.

(** [n] bytes of a multiplicative congruential sequence. *)
Fixpoint sample_stream (n : nat) (state : Z) : list Z :=
  match n with
  | O => []
  | S n => let state := (state * 6364136223846793005) mod 2 ^ 128 in
           Z.shiftr state 120 :: sample_stream n state
  end.

Definition sample_connection_init : connection :=
  mk_connection None (-1) None http None 0 None None
    (mk_tcp (mk_keep_alive false 0 0 0)) None None None 0 0 false 0 0
    (mk_cstats 0 0 0 0 0 0 0 0 0) 0 0 false None None body_content 0
    None None false false 0 false false 0 0 false (mk_body 0 0) 0 0 0 0
    None false.

Definition sample_externals : Externals := {|
  MB_MAX_CLIENTS := 1000;
  MB_CFG_COOKIES := false;
  MB_CFG_DURATION := 60;
  MB_TLS_VERSION := 0;
  HAVE_SSL := true;
  strtol := fun s => sample_digits s 0;
  connection_init := sample_connection_init;
  host_resolve := fun h p => if String.eqb h "" then None else Some p;
  http_requests_build := fun c =>
    (match path c with Some p => p | None => "" end,
     match path c with Some p => p | None => "" end);
  socket_connect := fun c => c;
  mcg64_seed := fun state => 2 * state + 1;
  mcg64cpy := fun state n => sample_stream (Z.to_nat n) state
|}.

Definition world0 : world :=
  mk_world (mk_config false 0 None None 0 0 false 4) [].


(** ** Definitions used to state the properties *)

(** 1024^k as a rational. *)
Definition pow1024 (k : nat) : Q := inject_Z (1024 ^ Z.of_nat k).

(** The slice the specification describes for worker [id]. *)
Definition spec_thread_slice (connections threads id : Z) : list Z :=
  seqZ (id * connections / threads)
       ((id + 1) * connections / threads - id * connections / threads).

(** A file with one template whose [clients] is 0. *)
Definition clients_zero_file : json_value :=
  JArray [JObject [("host", JString "h"); ("port", JInteger 80);
                   ("clients", JInteger 0)]].

(** A template with a random body of 16 bytes for host [h]; the
    ["body"] member is the third one, index 2. *)
Definition random_body_template (h : string) : json_value :=
  JObject [("host", JString h); ("port", JInteger 80);
           ("body", JObject [("type", JString "random");
                             ("size", JInteger 16)])].

(** A file with two such templates, for two hosts. *)
Definition two_templates_file : json_value :=
  JArray [random_body_template "a"; random_body_template "b"].

Definition sample_counters (r w d : Z) : connection :=
  set_cstats (mk_cstats 0 0 0 0 1 0 r w d) sample_connection_init.

(** What holds in every state the threads can reach. *)
Record run_invariant (connections : Z) (s : run_state) : Prop := {
  inv_start : main s = Main_start ->
              created s = 0 /\ calls_done s = 0 /\ run_lock s = None;
  inv_created : 0 <= created s;
  inv_idle : forall tid, workers s tid <> W_idle -> 0 <= tid < created s;
  inv_free : run_lock s = None ->
             forall tid, in_critical (workers s tid) = false;
  inv_held : forall h, run_lock s = Some h ->
             in_critical (workers s h) = true /\
             forall tid, tid <> h -> in_critical (workers s tid) = false;
  inv_tmp : forall tid tmp, workers s tid = W_store tmp -> tmp = run s;
  inv_run : main s = Main_create -> run s = connections - decrements s
}.

(** Three connections, two workers; worker 1 retires a connection. *)
Definition run_sample_trace : list run_state :=
  let s0 := run_initial in
  let s1 := mk_run_state 3 None Main_create 0 (workers s0) 0 in
  let s2 := mk_run_state 3 None Main_create 1 (workers s0) 0 in
  let s3 := mk_run_state 3 None Main_create 2 (workers s0) 0 in
  let s4 := mk_run_state 3 None Main_create 2
              (set_worker 1 W_lock (workers s3)) 0 in
  let s5 := mk_run_state 3 (Some 1) Main_create 2
              (set_worker 1 W_load (workers s4)) 0 in
  let s6 := mk_run_state 3 (Some 1) Main_create 2
              (set_worker 1 (W_store 3) (workers s5)) 0 in
  let s7 := mk_run_state 2 (Some 1) Main_create 2
              (set_worker 1 W_unlock (workers s6)) 0 in
  let s8 := mk_run_state 2 None Main_create 2
              (set_worker 1 W_idle (workers s7)) 1 in
  [s0; s1; s2; s3; s4; s5; s6; s7; s8].

Definition run_sample_final : run_state :=
  nth 8 run_sample_trace run_initial.


(** * Properties *)

(** ** Machine integers *)

Lemma to_uint64_small x : 0 <= x < 2 ^ 64 -> to_uint64 x = x.
Proof. intros H. unfold to_uint64. now apply Z.mod_small. Qed.

Lemma to_uint64_add_l a b : to_uint64 (to_uint64 a + b) = to_uint64 (a + b).
Proof. unfold to_uint64. now rewrite Z.add_mod_idemp_l by lia. Qed.

(** ** The monad *)

Lemma bind_Ok {A B} (m : M A) (k : A -> M B) w b w' :
  bind m k w = Ok b w' -> exists a w1, m w = Ok a w1 /\ k a w1 = Ok b w'.
Proof.
  unfold bind. destruct (m w) as [a w1|st w1]; [eauto | discriminate].
Qed.

Lemma json_check_value_Ok v ty err w u w' :
  json_check_value v ty err w = Ok u w' -> w' = w /\ json_typeof v = ty.
Proof.
  unfold json_check_value.
  destruct (json_type_eqb (json_typeof v) ty) eqn:Hty; [|discriminate].
  intros [= _ <-]. split; [reflexivity|].
  destruct (json_typeof v), ty; simpl in Hty; congruence.
Qed.

Ltac monad_inv H :=
  lazymatch type of H with
  | bind _ _ _ = Ok _ _ =>
      let a := fresh "a" in let w := fresh "w" in
      let H1 := fresh "Hm" in
      apply bind_Ok in H as (a & w & H1 & H);
      first [ apply json_check_value_Ok in H1 as [-> ?] | monad_inv H1 ];
      monad_inv H
  | ret _ _ = Ok _ _ => unfold ret in H; inversion H; subst; clear H
  | die _ _ _ = Ok _ _ => discriminate H
  | warning _ _ = Ok _ _ => unfold warning in H; inversion H; subst; clear H
  | modify_cfg _ _ = Ok _ _ =>
      unfold modify_cfg in H; inversion H; subst; clear H
  | (if ?b then _ else _) _ = Ok _ _ => destruct b eqn:?; monad_inv H
  | (let '(_, _) := ?p in _) _ = Ok _ _ => destruct p eqn:?; monad_inv H
  | (match ?x with Some _ => _ | None => _ end) _ = Ok _ _ =>
      destruct x eqn:?; monad_inv H
  | (match ?x with body_content => _ | body_random => _ end) _ = Ok _ _ =>
      destruct x eqn:?; monad_inv H
  | _ => idtac
  end.

Lemma object_loop_preserves {S : Type} (P : S -> Prop)
    (step : Z -> string -> json_value -> S -> M S) :
  (forall i k v s w s' w', P s -> step i k v s w = Ok s' w' -> P s') ->
  forall kvs i s w s' w',
    P s -> object_loop step i kvs s w = Ok s' w' -> P s'.
Proof.
  intros Hstep kvs. induction kvs as [|[k v] kvs IH]; intros i s w s' w' HP H.
  - simpl in H. injection H as <- <-. exact HP.
  - simpl in H. apply bind_Ok in H as (s1 & w1 & H1 & H).
    eapply IH; [|exact H]. eapply Hstep; eauto.
Qed.

(** ** format_bytes *)

Section FormatBytes.
Local Open Scope Q_scope.

Lemma pow1024_pos k : 0 < pow1024 k.
Proof.
  unfold pow1024. change 0 with (inject_Z 0). rewrite <- Zlt_Qlt.
  apply Z.pow_pos_nonneg; lia.
Qed.

Lemma pow1024_S k : pow1024 (S k) == base * pow1024 k.
Proof.
  unfold pow1024, base. rewrite Nat2Z.inj_succ, Z.pow_succ_r by lia.
  rewrite inject_Z_mult. reflexivity.
Qed.

Lemma pow1024_0 n : n / pow1024 0 == n.
Proof. change (pow1024 0) with 1. unfold Qdiv. apply Qmult_1_r. Qed.

Lemma div_base_pow n k : n / base / pow1024 k == n / pow1024 (S k).
Proof.
  rewrite pow1024_S. pose proof (pow1024_pos k) as Hk.
  assert (Hne : ~ pow1024 k == 0).
  { intros Heq. rewrite Heq in Hk. inversion Hk. }
  unfold base. field. exact Hne.
Qed.

Lemma Qle_bool_false a b : Qle_bool a b = false -> b < a.
Proof.
  intros H. apply Qnot_le_lt. intros Hle.
  apply Qle_bool_iff in Hle. congruence.
Qed.

Lemma iter_suffix_next_comm j k :
  Nat.iter j suffix_next (suffix_next k) = Nat.iter (S j) suffix_next k.
Proof.
  induction j as [|j IH]; [reflexivity|]. simpl in *. now rewrite IH.
Qed.

Lemma format_bytes_loop_spec fuel : forall n k,
  n <= pow1024 fuel ->
  exists j : nat,
    (j <= fuel)%nat /\
    snd (format_bytes_loop fuel n k) = Nat.iter j suffix_next k /\
    fst (format_bytes_loop fuel n k) == n / pow1024 j /\
    fst (format_bytes_loop fuel n k) <= base /\
    (forall i, (i < j)%nat -> base < n / pow1024 i).
Proof.
  induction fuel as [|fuel IH]; intros n k Hn.
  - exists 0%nat. simpl. repeat split; try lia.
    + now rewrite pow1024_0.
    + unfold pow1024 in Hn. simpl in Hn. unfold base.
      eapply Qle_trans; [exact Hn|]. discriminate.
  - simpl. destruct (Qle_bool n base) eqn:Hb.
    + exists 0%nat. simpl. repeat split; try lia.
      * now rewrite pow1024_0.
      * now apply Qle_bool_iff.
    + apply Qle_bool_false in Hb.
      assert (Hn' : n / base <= pow1024 fuel).
      { apply Qle_shift_div_r; [reflexivity|].
        rewrite Qmult_comm, <- pow1024_S. exact Hn. }
      destruct (IH (n / base) (suffix_next k) Hn')
        as (j & Hj & Heq & Hm & Hle & Hmin).
      exists (S j). repeat split; try lia.
      * rewrite Heq. apply iter_suffix_next_comm.
      * rewrite Hm. apply div_base_pow.
      * exact Hle.
      * intros [|i] Hi.
        -- now rewrite pow1024_0.
        -- rewrite <- div_base_pow. apply Hmin. lia.
Qed.

Lemma format_bytes_fuel_enough n : 0 <= n -> n <= pow1024 (format_bytes_fuel n).
Proof.
  destruct n as [a b]. intros H0.
  assert (Ha : (0 <= a)%Z).
  { unfold Qle in H0. simpl in H0. lia. }
  unfold format_bytes_fuel, pow1024. simpl Qnum.
  apply Qle_trans with (inject_Z a).
  - unfold Qle. simpl. nia.
  - rewrite <- Zle_Qle. rewrite Nat2Z.inj_succ, Z2Nat.id by apply Z.log2_nonneg.
    destruct (Z.eq_dec a 0%Z) as [->|Hne].
    + simpl. lia.
    + assert (Hpos : (0 < a)%Z) by lia.
      pose proof (Z.log2_spec a Hpos) as [_ Hlt].
      pose proof (Z.log2_nonneg a) as Hl.
      change 1024%Z with (2 ^ 10)%Z. rewrite <- Z.pow_mul_r by lia.
      apply Z.lt_le_incl. eapply Z.lt_le_trans; [exact Hlt|].
      apply Z.pow_le_mono_r; lia.
Qed.

(** C9: for a count [n] between 0 and 1024^9, [format_bytes] divides by
    1024 exactly [k] times, where [k] is the least number of divisions
    that brings the value to 1024 or below, and prints that quotient
    with two decimals followed by the [k]-th suffix; so 1024 itself is
    printed unscaled, as 1024.00B, and a mantissa of 1024 occurs. *)
Theorem format_bytes_least_scale (n : Q) :
  0 <= n -> n <= pow1024 9 ->
  (exists (k : nat) (m : Q) (s : string),
     format_bytes_scale n = (m, k) /\
     m == n / pow1024 k /\
     m <= 1024 /\
     (forall i, (i < k)%nat -> 1024 < n / pow1024 i) /\
     nth k iec_suffix None = Some s /\
     format_bytes n = substring 0 10 (format_0_2Lf m ++ s)) /\
  format_bytes 1024 = "1024.00B"%string /\
  format_bytes 1025 <> "1024.00B"%string /\
  format_bytes (1024 * 1024) = "1024.00kiB"%string.
Proof.
  intros H0 H9. split; [|split; [reflexivity | split; [discriminate | reflexivity]]].
  destruct (format_bytes_loop_spec (format_bytes_fuel n) n 0
              (format_bytes_fuel_enough n H0))
    as (j & _ & Hs & Hm & Hle & Hmin).
  assert (Hj : (j <= 8)%nat).
  { destruct (le_lt_dec j 8) as [|Hgt]; [assumption|exfalso].
    specialize (Hmin 8%nat Hgt).
    apply (Qlt_not_le _ _ Hmin).
    apply Qle_shift_div_r; [apply pow1024_pos|].
    rewrite <- pow1024_S. exact H9. }
  unfold format_bytes. fold (format_bytes_scale n) in Hs, Hm, Hle.
  destruct (format_bytes_scale n) as [m k] eqn:Hsc. simpl in Hs, Hm, Hle.
  assert (Hk : k = j).
  { rewrite Hs. clear -Hj. do 9 (destruct j as [|j]; [reflexivity|]). lia. }
  subst k.
  assert (Hsuf : exists s, nth j iec_suffix None = Some s).
  { clear -Hj. do 9 (destruct j as [|j]; [simpl; eauto|]). lia. }
  destruct Hsuf as [s Hsuf].
  rewrite Hk. exists j, m, s. rewrite Hsuf.
  split; [reflexivity|]. split; [exact Hm|]. split; [exact Hle|].
  split; [exact Hmin|]. split; reflexivity.
Qed.

Lemma format_bytes_least_scale_witness :
  exists (k : nat) (m : Q) (s : string),
    format_bytes_scale (3000000 # 1) = (m, k) /\
    m == (3000000 # 1) / pow1024 k /\ m <= 1024 /\
    (forall i, (i < k)%nat -> 1024 < (3000000 # 1) / pow1024 i) /\
    nth k iec_suffix None = Some s /\
    format_bytes (3000000 # 1) = substring 0 10 (format_0_2Lf m ++ s).
Proof.
  refine (proj1 (format_bytes_least_scale (3000000 # 1) _ _)).
  - discriminate.
  - discriminate.
Defined.

End FormatBytes.


(** ** stats_print *)

Lemma stats_print_fold cs : forall acc,
  let r := foldl (fun acc cs_ptr =>
           mk_totals
             (to_uint64 (tot_reqs acc + reqs_total (cstats cs_ptr)))
             (to_uint64 (tot_sent_bytes acc + written_total (cstats cs_ptr)))
             (to_uint64 (tot_recv_bytes acc + read_total (cstats cs_ptr))))
        acc cs in
  to_uint64 (tot_reqs r) = to_uint64 (tot_reqs acc + sum_of reqs_total cs) /\
  to_uint64 (tot_sent_bytes r) =
    to_uint64 (tot_sent_bytes acc + sum_of written_total cs) /\
  to_uint64 (tot_recv_bytes r) =
    to_uint64 (tot_recv_bytes acc + sum_of read_total cs).
Proof.
  induction cs as [|c cs IH]; intros acc; simpl.
  - now rewrite !Z.add_0_r.
  - destruct (IH (mk_totals
             (to_uint64 (tot_reqs acc + reqs_total (cstats c)))
             (to_uint64 (tot_sent_bytes acc + written_total (cstats c)))
             (to_uint64 (tot_recv_bytes acc + read_total (cstats c)))))
      as (H1 & H2 & H3).
    simpl in H1, H2, H3.
    rewrite H1, H2, H3, !to_uint64_add_l, !Z.add_assoc. auto.
Qed.

Lemma stats_print_fold_range cs : forall acc,
  let r := foldl (fun acc cs_ptr =>
           mk_totals
             (to_uint64 (tot_reqs acc + reqs_total (cstats cs_ptr)))
             (to_uint64 (tot_sent_bytes acc + written_total (cstats cs_ptr)))
             (to_uint64 (tot_recv_bytes acc + read_total (cstats cs_ptr))))
        acc cs in
  to_uint64 (tot_reqs acc) = tot_reqs acc ->
  to_uint64 (tot_sent_bytes acc) = tot_sent_bytes acc ->
  to_uint64 (tot_recv_bytes acc) = tot_recv_bytes acc ->
  to_uint64 (tot_reqs r) = tot_reqs r /\
  to_uint64 (tot_sent_bytes r) = tot_sent_bytes r /\
  to_uint64 (tot_recv_bytes r) = tot_recv_bytes r.
Proof.
  induction cs as [|c cs IH]; intros acc; simpl; [auto|].
  intros _ _ _. apply IH; simpl; unfold to_uint64; apply Z.mod_mod; lia.
Qed.

(** The accumulators hold the sums modulo 2^64. *)
Lemma stats_print_loop_mod cs connections :
  let s := stats_print_loop cs connections in
  let l := take (Z.to_nat connections) cs in
  tot_reqs s = to_uint64 (sum_of reqs_total l) /\
  tot_sent_bytes s = to_uint64 (sum_of written_total l) /\
  tot_recv_bytes s = to_uint64 (sum_of read_total l).
Proof.
  intros s l. subst s. unfold stats_print_loop. fold l.
  destruct (stats_print_fold l (mk_totals 0 0 0)) as (H1 & H2 & H3).
  destruct (stats_print_fold_range l (mk_totals 0 0 0)) as (R1 & R2 & R3);
    try reflexivity.
  simpl in *. rewrite <- R1, <- R2, <- R3. auto.
Qed.

(** C4: when [connections] is the length of [cs] and the three sums fit
    in a [uint64_t], the number printed as Hits is the sum of
    [cstats.reqs_total] over all connections, and the texts printed for
    Sent and Recv are [format_bytes] of the sums of
    [cstats.written_total] and [cstats.read_total]. *)
Theorem stats_print_sums (cs : list connection) (connections : Z) :
  connections = Z.of_nat (List.length cs) ->
  0 <= sum_of reqs_total cs < 2 ^ 64 ->
  0 <= sum_of written_total cs < 2 ^ 64 ->
  0 <= sum_of read_total cs < 2 ^ 64 ->
  printed_hits (stats_print cs connections) = sum_of reqs_total cs /\
  printed_sent (stats_print cs connections) =
    format_bytes (inject_Z (sum_of written_total cs)) /\
  printed_recv (stats_print cs connections) =
    format_bytes (inject_Z (sum_of read_total cs)) /\
  tot_sent_bytes (stats_print_loop cs connections) = sum_of written_total cs /\
  tot_recv_bytes (stats_print_loop cs connections) = sum_of read_total cs.
Proof.
  intros -> Hr Hw Hd.
  destruct (stats_print_loop_mod cs (Z.of_nat (List.length cs)))
    as (H1 & H2 & H3).
  rewrite Nat2Z.id, firstn_all in H1, H2, H3.
  rewrite to_uint64_small in H1, H2, H3 by assumption.
  unfold stats_print. simpl. rewrite H1, H2, H3. auto.
Qed.

Lemma stats_print_sums_witness :
  printed_hits
    (stats_print [sample_counters 3 300 2048; sample_counters 4 700 1024] 2)
  = 7 /\
  printed_sent
    (stats_print [sample_counters 3 300 2048; sample_counters 4 700 1024] 2)
  = "1000.00B" /\
  printed_recv
    (stats_print [sample_counters 3 300 2048; sample_counters 4 700 1024] 2)
  = "3.00kiB".
Proof.
  pose proof (stats_print_sums
    [sample_counters 3 300 2048; sample_counters 4 700 1024] 2
    eq_refl ltac:(vm_compute; split; congruence)
    ltac:(vm_compute; split; congruence)
    ltac:(vm_compute; split; congruence)) as (H1 & H2 & H3 & _).
  rewrite H1, H2, H3. repeat split; reflexivity.
Defined.

(** ** thread_main: the slices *)

Section Slices.
Variables connections threads : Z.
Hypothesis Hc : 1 <= connections <= INT_MAX.
Hypothesis Ht : 1 <= threads <= connections.

Let q := connections / threads.

Lemma slice_q_bounds : 1 <= q /\ q * threads <= connections < q * threads + threads.
Proof.
  unfold q. pose proof (Z.div_mod connections threads ltac:(lia)) as Hdm.
  pose proof (Z.mod_pos_bound connections threads ltac:(lia)) as Hm.
  assert (1 <= connections / threads).
  { apply Z.div_le_lower_bound; lia. }
  nia.
Qed.

Lemma connections_per_thread_eq : connections_per_thread connections threads = q.
Proof.
  pose proof slice_q_bounds as [Hq1 Hq2]. unfold INT_MAX in Hc.
  unfold connections_per_thread.
  destruct (connections >? threads) eqn:Hgt.
  - apply to_uint64_small. fold q. nia.
  - assert (connections = threads) by lia. subst q.
    subst connections. now rewrite Z.div_same by lia.
Qed.

Lemma cs_ptr_start_eq id :
  0 <= id < threads -> cs_ptr_start connections threads id = q * id.
Proof.
  intros Hid. pose proof slice_q_bounds as [Hq1 Hq2]. unfold INT_MAX in Hc.
  unfold cs_ptr_start. rewrite connections_per_thread_eq.
  apply to_uint64_small. nia.
Qed.

Lemma cs_ptr_end_eq id :
  0 <= id < threads ->
  cs_ptr_end connections threads id =
  if id =? threads - 1 then connections else q * (id + 1).
Proof.
  intros Hid. pose proof slice_q_bounds as [Hq1 Hq2]. unfold INT_MAX in Hc.
  unfold cs_ptr_end. rewrite connections_per_thread_eq.
  rewrite (to_uint64_small (threads - 1)) by lia.
  destruct (id =? threads - 1); [reflexivity|].
  apply to_uint64_small. nia.
Qed.

Lemma thread_slice_In id n :
  0 <= id < threads ->
  In n (thread_slice connections threads id) <->
  id * q <= n < (if id =? threads - 1 then connections else (id + 1) * q).
Proof.
  intros Hid. pose proof slice_q_bounds as [Hq1 Hq2].
  unfold thread_slice.
  destruct (id >=? connections) eqn:Hge; [lia|].
  rewrite <- list_elem_of_In, elem_of_seqZ.
  rewrite cs_ptr_start_eq, cs_ptr_end_eq by assumption.
  destruct (id =? threads - 1) eqn:Hl; nia.
Qed.

Lemma thread_slice_owner n :
  0 <= n < connections ->
  exists id, 0 <= id < threads /\
    In n (thread_slice connections threads id) /\
    forall id', 0 <= id' < threads ->
      In n (thread_slice connections threads id') -> id' = id.
Proof.
  intros Hn. pose proof slice_q_bounds as [Hq1 Hq2].
  exists (Z.min (n / q) (threads - 1)).
  pose proof (Z.div_mod n q ltac:(lia)) as Hdm.
  pose proof (Z.mod_pos_bound n q ltac:(lia)) as Hm.
  assert (Hd0 : 0 <= n / q) by (apply Z.div_pos; lia).
  assert (Hown : forall id, 0 <= id < threads ->
            In n (thread_slice connections threads id) ->
            id = Z.min (n / q) (threads - 1)).
  { intros id Hid Hin. apply thread_slice_In in Hin; [|assumption].
    destruct (id =? threads - 1) eqn:Hl.
    - assert (threads - 1 <= n / q) by (apply Z.div_le_lower_bound; lia). lia.
    - assert (n / q = id); [|lia].
      symmetry. apply (Z.div_unique n q id (n - q * id)); lia. }
  split; [lia|]. split; [|exact Hown].
  apply thread_slice_In; [lia|].
  destruct (Z.min (n / q) (threads - 1) =? threads - 1) eqn:Hl.
  - assert (threads - 1 <= n / q) by lia. nia.
  - assert (Z.min (n / q) (threads - 1) = n / q) as -> by lia. nia.
Qed.

End Slices.

Lemma threads_cap_bounds connections threads0 :
  1 <= connections -> 1 <= threads0 ->
  1 <= threads_cap connections threads0 <= connections.
Proof. intros. unfold threads_cap. destruct (threads0 >? connections) eqn:?; lia. Qed.

(** C2, as the code has it: with the worker count capped at the number
    of connections, worker [id] visits exactly the indices from
    [id * floor(C/T)] up to [(id + 1) * floor(C/T)], except the last
    worker, which goes on to [C]; every connection is visited by exactly
    one worker. *)
Theorem thread_slice_partition (connections threads0 : Z) :
  1 <= connections <= INT_MAX -> 1 <= threads0 ->
  let threads := threads_cap connections threads0 in
  let q := connections / threads in
  (forall id n, 0 <= id < threads ->
     (In n (thread_slice connections threads id) <->
      id * q <= n <
      (if id =? threads - 1 then connections else (id + 1) * q))) /\
  (forall n, 0 <= n < connections ->
     exists id, 0 <= id < threads /\
       In n (thread_slice connections threads id) /\
       forall id', 0 <= id' < threads ->
         In n (thread_slice connections threads id') -> id' = id).
Proof.
  intros Hc Ht threads q.
  pose proof (threads_cap_bounds connections threads0 ltac:(lia) Ht) as Hcap.
  split.
  - intros id n Hid. now apply thread_slice_In.
  - intros n Hn. now apply thread_slice_owner.
Qed.

Lemma thread_slice_partition_witness :
  1 <= 8 <= INT_MAX /\ 1 <= 3 /\
  (In 4 (thread_slice 8 (threads_cap 8 3) 2) <-> 2 * 2 <= 4 < 8).
Proof.
  split; [unfold INT_MAX; lia|]. split; [lia|].
  assert (H1 : 1 <= 8 <= INT_MAX) by (unfold INT_MAX; lia).
  assert (H2 : 1 <= 3) by lia.
  exact (proj1 (thread_slice_partition 8 3 H1 H2) 2 4 ltac:(vm_compute; split; congruence)).
Defined.

(** C2, as stated, fails: with 8 connections and 3 workers, worker 1
    visits 2 and 3, while the stated bounds floor(1*8/3) = 2 and
    floor(2*8/3) = 5 would give it 2, 3 and 4. *)
Lemma thread_slice_not_floor_of_product :
  thread_slice 8 (threads_cap 8 3) 1 = [2; 3] /\
  spec_thread_slice 8 (threads_cap 8 3) 1 = [2; 3; 4] /\
  thread_slice 8 (threads_cap 8 3) 1 <> spec_thread_slice 8 (threads_cap 8 3) 1.
Proof. split; [reflexivity|]. split; [reflexivity|]. discriminate. Qed.

(** ** thread_main: the set-up loop *)

Section Setup.
Context `{E : Externals}.

Lemma foldl_alter_lookup (g : connection -> connection) (idx : list nat) :
  forall (cs : list connection) (k : nat),
  NoDup idx ->
  foldl (fun cs n => alter g n cs) cs idx !! k =
  if decide (k ∈ idx) then g <$> cs !! k else cs !! k.
Proof.
  induction idx as [|i idx IH]; intros cs k Hnd; simpl.
  - destruct (decide (k ∈ [])) as [Hin|]; [inversion Hin | reflexivity].
  - apply NoDup_cons in Hnd as [Hni Hnd].
    rewrite IH by assumption.
    destruct (decide (k = i)) as [->|Hne].
    + destruct (decide (i ∈ idx)); [contradiction|].
      destruct (decide (i ∈ i :: idx)) as [|Hn]; [|exfalso; apply Hn; left].
      apply list_lookup_alter_eq.
    + rewrite list_lookup_alter_ne by congruence.
      destruct (decide (k ∈ idx)) as [Hin|Hnin];
        destruct (decide (k ∈ i :: idx)) as [Hin'|Hnin']; auto.
      * exfalso. apply Hnin'. now right.
      * exfalso. apply elem_of_cons in Hin' as [?|?]; congruence.
Qed.

Lemma thread_slice_nonneg connections threads id n :
  n ∈ thread_slice connections threads id -> 0 <= n.
Proof.
  unfold thread_slice. destruct (id >=? connections); [inversion 1|].
  rewrite elem_of_seqZ. unfold cs_ptr_start, to_uint64.
  pose proof (Z.mod_pos_bound
    (connections_per_thread connections threads * id) (2 ^ 64) ltac:(lia)).
  lia.
Qed.

Lemma thread_slice_NoDup connections threads id :
  NoDup (Z.to_nat <$> thread_slice connections threads id).
Proof.
  apply NoDup_fmap_2_strong.
  - intros x y Hx Hy Heq.
    apply thread_slice_nonneg in Hx, Hy. lia.
  - unfold thread_slice. destruct (id >=? connections);
      [constructor | apply NoDup_seqZ].
Qed.

(** C8: every connection [n] of the worker's slice is handed to
    [socket_connect] with [delayed] set to the truth value of
    [delay_max <> 0]: [delayed] is true exactly when [delay_max] is not
    zero, and [delay_max] itself is left as it was. *)
Theorem thread_main_setup_delayed (cs : list connection)
    (connections threads id n : Z) (c : connection) :
  In n (thread_slice connections threads id) ->
  cs !! Z.to_nat n = Some c ->
  thread_main_setup cs connections threads id !! Z.to_nat n =
    Some (socket_connect (thread_main_assign id c)) /\
  (delayed (thread_main_assign id c) = true <-> delay_max c <> 0) /\
  delayed (thread_main_assign id c) = negb (delay_max c =? 0) /\
  delay_max (thread_main_assign id c) = delay_max c /\
  t (thread_main_assign id c) = Some id.
Proof.
  intros Hin Hc. apply list_elem_of_In in Hin.
  split.
  - unfold thread_main_setup.
    rewrite <- (foldl_fmap (fun cs n => alter (fun c => socket_connect (thread_main_assign id c)) n cs) cs (thread_slice connections threads id) Z.to_nat).
    rewrite foldl_alter_lookup by apply thread_slice_NoDup.
    destruct (decide _) as [_|Hn].
    + now rewrite Hc.
    + exfalso. apply Hn. apply list_elem_of_fmap. eauto.
  - unfold thread_main_assign. simpl. repeat split; auto.
    + intros H Hz. rewrite Hz in H. discriminate.
    + intros H. destruct (delay_max c =? 0) eqn:Hz; [lia | reflexivity].
Qed.

End Setup.

Lemma thread_main_setup_delayed_witness :
  delayed (thread_main_assign 1 (set_delay_max 250 sample_connection_init))
  = true /\
  thread_main_setup (E := sample_externals)
    [sample_connection_init; sample_connection_init;
     set_delay_max 250 sample_connection_init; sample_connection_init] 4 2 1
  !! 2%nat
  = Some (thread_main_assign 1 (set_delay_max 250 sample_connection_init)).
Proof.
  pose proof (thread_main_setup_delayed (E := sample_externals)
    [sample_connection_init; sample_connection_init;
     set_delay_max 250 sample_connection_init; sample_connection_init]
    4 2 1 2 (set_delay_max 250 sample_connection_init)
    ltac:(vm_compute; auto) eq_refl) as (H1 & H2 & _).
  split; [apply H2; discriminate | exact H1].
Defined.

(** ** The run counter *)

Lemma set_worker_eq tid p f : set_worker tid p f tid = p.
Proof. unfold set_worker. now rewrite Z.eqb_refl. Qed.

Lemma set_worker_ne tid p f x : x <> tid -> set_worker tid p f x = f x.
Proof.
  intros H. unfold set_worker. destruct (x =? tid) eqn:Heq; [lia | reflexivity].
Qed.

Lemma run_invariant_initial connections : run_invariant connections run_initial.
Proof.
  constructor; simpl; try (intros; congruence); try lia; auto.
Qed.

Ltac worker_cases tid x :=
  destruct (Z.eq_dec x tid) as [->|?];
  [rewrite ?set_worker_eq in * | rewrite ?set_worker_ne in * by assumption].

Lemma run_invariant_step connections threads s s' :
  run_invariant connections s ->
  run_step connections threads s s' ->
  run_invariant connections s'.
Proof.
  intros [Hst Hcr Hid Hfr Hhe Htm Hrun] Hstep.
  assert (Hcrit : forall tid, in_critical (workers s tid) = true ->
                  run_lock s = Some tid).
  { intros tid Hc. destruct (run_lock s) as [h|] eqn:Hl.
    - destruct (Z.eq_dec tid h) as [->|Hne]; [reflexivity|].
      destruct (Hhe h eq_refl) as [_ Ho]. rewrite (Ho tid Hne) in Hc. discriminate.
    - rewrite (Hfr eq_refl tid) in Hc. discriminate. }
  inversion Hstep; subst; clear Hstep; constructor; simpl.
  (* line 852 *)
  - discriminate.
  - assumption.
  - assumption.
  - assumption.
  - assumption.
  - intros tid tmp Hw. destruct (Hst H) as (Hc0 & _).
    assert (0 <= tid < created s) by (apply Hid; rewrite Hw; discriminate).
    lia.
  - intros _. destruct (Hst H) as (Hc0 & Hd0 & Hl0).
    unfold decrements. simpl. rewrite Hl0, Hd0. lia.
  (* line 856 *)
  - congruence.
  - lia.
  - intros tid Hw. specialize (Hid tid Hw). lia.
  - assumption.
  - assumption.
  - assumption.
  - assumption.
  (* requests_done is called *)
  - intros Hm. destruct (Hst Hm) as (Hc0 & _). lia.
  - assumption.
  - intros x Hx. worker_cases tid x; auto.
  - intros Hl x. worker_cases tid x; auto.
  - intros h Hl. destruct (Hhe h Hl) as [Hh Ho].
    assert (h <> tid).
    { intros ->. rewrite H0 in Hh. discriminate. }
    rewrite set_worker_ne by assumption. split; [assumption|].
    intros x Hx. worker_cases tid x; auto.
  - intros x tmp Hx. worker_cases tid x; [discriminate | eauto].
  - intros Hm. rewrite (Hrun Hm). unfold decrements. simpl.
    destruct (run_lock s) as [h|] eqn:Hl; [|reflexivity].
    destruct (Hhe h eq_refl) as [Hh _].
    assert (h <> tid).
    { intros ->. rewrite H0 in Hh. discriminate. }
    now rewrite set_worker_ne by assumption.
  (* pthread_mutex_lock returns *)
  - intros Hm. destruct (Hst Hm) as (Hc0 & _).
    assert (0 <= tid < created s) by (apply Hid; rewrite H; discriminate).
    lia.
  - assumption.
  - intros x Hx. worker_cases tid x; auto.
    apply Hid. rewrite H. discriminate.
  - discriminate.
  - intros h [= <-]. rewrite set_worker_eq. split; [reflexivity|].
    intros x Hx. rewrite set_worker_ne by assumption. now apply Hfr.
  - intros x tmp Hx. worker_cases tid x; [discriminate | eauto].
  - intros Hm. rewrite (Hrun Hm). unfold decrements. simpl.
    rewrite H0, set_worker_eq. reflexivity.
  (* run is read *)
  - intros Hm. destruct (Hst Hm) as (Hc0 & _).
    assert (0 <= tid < created s) by (apply Hid; rewrite H; discriminate).
    lia.
  - assumption.
  - intros x Hx. worker_cases tid x; auto.
    apply Hid. rewrite H. discriminate.
  - intros Hl. rewrite (Hcrit tid) in Hl; [discriminate | now rewrite H].
  - intros h Hh. rewrite (Hcrit tid) in Hh by now rewrite H.
    injection Hh as <-.
    rewrite set_worker_eq. split; [reflexivity|].
    intros x Hx. rewrite set_worker_ne by assumption.
    apply (Hhe tid); [apply Hcrit; now rewrite H | assumption].
  - intros x tmp Hx. worker_cases tid x; [congruence | eauto].
  - intros Hm. rewrite (Hrun Hm). unfold decrements. simpl.
    rewrite (Hcrit tid) by now rewrite H.
    rewrite set_worker_eq, H. reflexivity.
  (* run is written *)
  - intros Hm. destruct (Hst Hm) as (Hc0 & _).
    assert (0 <= tid < created s) by (apply Hid; rewrite H; discriminate).
    lia.
  - assumption.
  - intros x Hx. worker_cases tid x; auto.
    apply Hid. rewrite H. discriminate.
  - intros Hl. rewrite (Hcrit tid) in Hl; [discriminate | now rewrite H].
  - intros h Hh. rewrite (Hcrit tid) in Hh by now rewrite H.
    injection Hh as <-.
    rewrite set_worker_eq. split; [reflexivity|].
    intros x Hx. rewrite set_worker_ne by assumption.
    apply (Hhe tid); [apply Hcrit; now rewrite H | assumption].
  - intros x tmp' Hx. worker_cases tid x; [discriminate|].
    assert (Hl : run_lock s = Some tid) by (apply Hcrit; now rewrite H).
    destruct (Hhe tid Hl) as [_ Ho]. specialize (Ho x ltac:(assumption)).
    rewrite Hx in Ho. discriminate.
  - intros Hm. pose proof (Htm tid tmp H) as ->.
    rewrite (Hrun Hm). unfold decrements. simpl.
    rewrite (Hcrit tid) by now rewrite H.
    rewrite set_worker_eq, H. lia.
  (* pthread_mutex_unlock *)
  - intros Hm. destruct (Hst Hm) as (_ & _ & Hl0).
    rewrite (Hcrit tid) in Hl0; [discriminate | now rewrite H].
  - assumption.
  - intros x Hx. worker_cases tid x; [congruence | auto].
  - intros _ x. worker_cases tid x; [reflexivity|].
    apply (Hhe tid); [apply Hcrit; now rewrite H | assumption].
  - discriminate.
  - intros x tmp Hx. worker_cases tid x; [discriminate | eauto].
  - intros Hm. rewrite (Hrun Hm). unfold decrements. simpl.
    rewrite (Hcrit tid) by now rewrite H.
    rewrite H. lia.
Qed.

Lemma run_reachable_invariant connections threads s :
  run_reachable connections threads s -> run_invariant connections s.
Proof.
  induction 1 as [|s s' _ IH Hstep].
  - apply run_invariant_initial.
  - eapply run_invariant_step; eauto.
Qed.

(** C5: in every state that [threads_start] and the workers can reach,
    a worker exists only after [run] was set to [connections]; from then
    on [run] equals [connections] less the number of [requests_done]
    calls whose decrement was carried out; and at most one worker is
    between taking and releasing [run_lock]. *)
Theorem run_counts_down (connections threads : Z) (s : run_state) :
  run_reachable connections threads s ->
  (0 < created s -> main s = Main_create) /\
  (main s = Main_create -> run s = connections - decrements s) /\
  (main s = Main_create -> run_lock s = None ->
   run s = connections - calls_done s) /\
  (forall a b, in_critical (workers s a) = true ->
               in_critical (workers s b) = true -> a = b).
Proof.
  intros Hr. destruct (run_reachable_invariant _ _ _ Hr)
    as [Hst Hcr Hid Hfr Hhe Htm Hrun].
  split; [|split; [|split]].
  - intros Hc. destruct (main s); [|reflexivity].
    destruct (Hst eq_refl) as (Hc0 & _). lia.
  - exact Hrun.
  - intros Hm Hl. rewrite (Hrun Hm). unfold decrements. rewrite Hl. lia.
  - intros a b Ha Hb. destruct (run_lock s) as [h|] eqn:Hl.
    + destruct (Hhe h eq_refl) as [_ Ho].
      destruct (Z.eq_dec a h) as [->|Hna]; [|rewrite (Ho a Hna) in Ha; discriminate].
      destruct (Z.eq_dec b h) as [->|Hnb]; [reflexivity|].
      rewrite (Ho b Hnb) in Hb. discriminate.
    + rewrite (Hfr eq_refl a) in Ha. discriminate.
Qed.

Lemma run_sample_reachable : run_reachable 3 2 run_sample_final.
Proof.
  unfold run_sample_final, run_sample_trace. simpl nth.
  eapply reach_step; [eapply reach_step; [eapply reach_step;
    [eapply reach_step; [eapply reach_step; [eapply reach_step;
    [eapply reach_step; [eapply reach_step; [apply reach_initial|]|]|]|]|]|]|]|].
  - exact (step_init 3 2 run_initial eq_refl).
  - refine (step_create 3 2 (mk_run_state 3 None Main_create 0 _ 0) eq_refl _).
    simpl; lia.
  - refine (step_create 3 2 (mk_run_state 3 None Main_create 1 _ 0) eq_refl _).
    simpl; lia.
  - refine (step_call 3 2 (mk_run_state 3 None Main_create 2 _ 0) 1 _ eq_refl).
    simpl; lia.
  - refine (step_lock 3 2 (mk_run_state 3 None Main_create 2 _ 0) 1 eq_refl eq_refl).
  - refine (step_load 3 2 (mk_run_state 3 (Some 1) Main_create 2 _ 0) 1 eq_refl).
  - refine (step_store 3 2 (mk_run_state 3 (Some 1) Main_create 2 _ 0) 1 3 eq_refl _).
    unfold INT_MIN; lia.
  - refine (step_unlock 3 2 (mk_run_state 2 (Some 1) Main_create 2 _ 0) 1 eq_refl).
Qed.

Lemma run_counts_down_witness :
  calls_done run_sample_final = 1 /\ run run_sample_final = 3 - 1.
Proof.
  split; [reflexivity|].
  exact (proj1 (proj2 (proj2 (run_counts_down 3 2 run_sample_final
                                run_sample_reachable)))
               eq_refl eq_refl).
Defined.

(** ** The loader *)

Section LoaderProofs.
Context `{E : Externals}.

(** ** json_process_connection_body *)

(** A body object without a [size] member leaves [req_body_size] as it
    was. *)
Lemma body_keys_size_absent kvs : forall i c w c1 w1,
  object_loop json_process_connection_body_key
  i kvs c w = Ok c1 w1 ->
  Forall (fun kv => fst kv <> "size") kvs ->
  req_body_size c1 = req_body_size c.
Proof.
  induction kvs as [|[k v] kvs IH]; intros i c w c1 w1 H Hno.
  - simpl in H. now injection H as <- <-.
  - apply Forall_cons in Hno as [Hk Hno]. simpl in Hk, H.
    apply bind_Ok in H as (c' & w' & Hstep & H).
    rewrite (IH _ _ _ _ _ H Hno). clear IH H.
    unfold json_process_connection_body_key in Hstep.
    destruct (String.eqb k "content") eqn:E1.
    { monad_inv Hstep. reflexivity. }
    destruct (String.eqb k "size") eqn:E2.
    { apply String.eqb_eq in E2. contradiction. }
    destruct (String.eqb k "type") eqn:E3; [|discriminate].
    monad_inv Hstep; reflexivity.
Qed.

(** C6: when the members of a body object leave [req_body_type] at
    [body_random], [json_process_connection_body] ends the process with
    the body.size diagnostic if [req_body_size] is 0, and otherwise
    returns the connection with [req_body] cleared; a [req_body] that
    was set is reported by the warning, in both cases. *)
Theorem json_process_connection_body_random
    (value : json_value) (c : connection) (w : world)
    (c1 : connection) (w1 : world) :
  json_process_connection_body_keys value c w = Ok c1 w1 ->
  req_body_type c1 = body_random ->
  let o := json_process_connection_body value c w in
  (req_body_size c1 = 0 -> died_with o body_size_zero) /\
  (req_body_size c1 <> 0 ->
     exists w2, o = Ok (set_req_body None c1) w2 /\
                req_body (set_req_body None c1) = None) /\
  (req_body c1 <> None ->
     exists pre, diagnostics (outcome_world o) =
                 (pre ++ (s_warning, body_content_ignored) :: diagnostics w1)%list) /\
  (req_body c1 = None ->
     ~ In (s_warning, body_content_ignored) (diagnostics w1) ->
     ~ In (s_warning, body_content_ignored) (diagnostics (outcome_world o))).
Proof.
  intros Hk Ht o. subst o.
  unfold json_process_connection_body, bind. rewrite Hk.
  unfold json_process_connection_body_checks. rewrite Ht.
  destruct (req_body c1) as [b|] eqn:Hb.
  - unfold bind, warning, ret. simpl.
    destruct (req_body_size c1 =? 0) eqn:Hz.
    + split; [|split; [|split]].
      * intros _. unfold died_with, die. do 2 eexists. split; [reflexivity|].
        split; [discriminate | reflexivity].
      * lia.
      * intros _. exists [(s_fatal, body_size_zero)]. reflexivity.
      * discriminate.
    + split; [|split; [|split]].
      * lia.
      * intros _. eexists. split; reflexivity.
      * intros _. exists []. reflexivity.
      * discriminate.
  - unfold bind, ret. simpl.
    assert (Hc1 : set_req_body None c1 = c1).
    { destruct c1. simpl in Hb. subst. reflexivity. }
    destruct (req_body_size c1 =? 0) eqn:Hz.
    + split; [|split; [|split]].
      * intros _. unfold died_with, die. do 2 eexists. split; [reflexivity|].
        split; [discriminate | reflexivity].
      * lia.
      * congruence.
      * intros _ Hn [Hin|Hin]; [discriminate | contradiction].
    + split; [|split; [|split]].
      * lia.
      * intros _. eexists. rewrite Hc1. split; [reflexivity | auto].
      * congruence.
      * intros _ Hn. exact Hn.
Qed.

(** ** json_process_connection: the port *)

Lemma tcp_keep_alive_port v c w c' w' :
  json_process_connection_tcp_keep_alive v c w = Ok c' w' -> port c' = port c.
Proof.
  unfold json_process_connection_tcp_keep_alive.
  apply (object_loop_preserves (fun x => port x = port c)); [|reflexivity].
  intros i k v0 s wa s' wb HP H. monad_inv H; exact HP.
Qed.

Lemma tcp_port v c w c' w' :
  json_process_connection_tcp v c w = Ok c' w' -> port c' = port c.
Proof.
  unfold json_process_connection_tcp.
  apply (object_loop_preserves (fun x => port x = port c)); [|reflexivity].
  intros i k v0 s wa s' wb HP H. monad_inv H.
  apply tcp_keep_alive_port in H. congruence.
Qed.

Lemma delay_port v c w c' w' :
  json_process_connection_delay v c w = Ok c' w' -> port c' = port c.
Proof.
  unfold json_process_connection_delay. intros H. monad_inv H.
  revert Hm. apply (object_loop_preserves (fun x => port x = port c));
    [|reflexivity].
  intros i k v0 s wa s' wb HP H. monad_inv H; exact HP.
Qed.

Lemma headers_port v c w c' w' :
  json_process_connection_headers v c w = Ok c' w' -> port c' = port c.
Proof.
  unfold json_process_connection_headers. intros H. monad_inv H. reflexivity.
Qed.

Lemma body_port v c w c' w' :
  json_process_connection_body v c w = Ok c' w' -> port c' = port c.
Proof.
  unfold json_process_connection_body. intros H. monad_inv H.
  assert (Ha : port a = port c).
  { revert Hm. apply (object_loop_preserves (fun x => port x = port c));
      [|reflexivity].
    intros i k v0 s wa s' wb HP H1.
    unfold json_process_connection_body_key in H1. monad_inv H1; exact HP. }
  unfold json_process_connection_body_checks in H.
  monad_inv H; simpl; assumption.
Qed.

Lemma close_port v c w c' w' :
  json_process_connection_close v c w = Ok c' w' -> port c' = port c.
Proof.
  unfold json_process_connection_close.
  apply (object_loop_preserves (fun x => port x = port c)); [|reflexivity].
  intros i k v0 s wa s' wb HP H. monad_inv H; exact HP.
Qed.

(** A member other than ["port"] leaves the port as it was. *)
Lemma json_process_connection_key_port i k v c n w c' n' w' :
  json_process_connection_key i k v (c, n) w = Ok (c', n') w' ->
  k <> "port" -> port c' = port c.
Proof.
  intros H Hk. unfold json_process_connection_key in H.
  destruct (String.eqb k "tcp"); [monad_inv H; eauto using tcp_port|].
  destruct (String.eqb k "delay"); [monad_inv H; eauto using delay_port|].
  destruct (String.eqb k "headers"); [monad_inv H; eauto using headers_port|].
  destruct (String.eqb k "body").
  { monad_inv H; [|reflexivity]. apply body_port in Hm.
    destruct (req_body_type a); simpl; assumption. }
  destruct (String.eqb k "close"); [monad_inv H; eauto using close_port|].
  destruct (String.eqb k "host_from"); [monad_inv H; reflexivity|].
  destruct (String.eqb k "host"); [monad_inv H; reflexivity|].
  destruct (String.eqb k "port") eqn:Hp.
  { apply String.eqb_eq in Hp. contradiction. }
  destruct (String.eqb k "scheme"); [monad_inv H; reflexivity|].
  destruct (String.eqb k "method"); [monad_inv H; reflexivity|].
  destruct (String.eqb k "path"); [monad_inv H; reflexivity|].
  destruct (String.eqb k "max-requests"); [monad_inv H; reflexivity|].
  destruct (String.eqb k "keep-alive-requests"); [monad_inv H; reflexivity|].
  destruct (String.eqb k "tls-session-reuse"); [monad_inv H; reflexivity|].
  destruct (String.eqb k "clients"); [monad_inv H; reflexivity|].
  destruct (String.eqb k "ramp-up"); [monad_inv H; reflexivity|].
  discriminate.
Qed.

Lemma object_loop_port_omitted kvs : forall i c0 n0 w c n w',
  object_loop json_process_connection_key i kvs (c0, n0) w = Ok (c, n) w' ->
  Forall (fun kv => fst kv <> "port") kvs ->
  port c = port c0.
Proof.
  induction kvs as [|[k v] kvs IH]; intros i c0 n0 w c n w' H Hno.
  - simpl in H. now inversion H.
  - apply Forall_cons in Hno as [Hk Hno]. simpl in Hk, H.
    apply bind_Ok in H as ([c1 n1] & w1 & Hstep & H).
    rewrite (IH _ _ _ _ _ _ _ H Hno).
    exact (json_process_connection_key_port _ _ _ _ _ _ _ _ _ Hstep Hk).
Qed.

(** A template without a ["port"] member keeps the default port. *)
Lemma json_process_connection_keys_port_omitted kvs c n w w' :
  json_process_connection_keys (JObject kvs) w = Ok (c, n) w' ->
  Forall (fun kv => fst kv <> "port") kvs ->
  port c = port connection_init.
Proof.
  unfold json_process_connection_keys. cbn [u_object].
  intros H Hno. exact (object_loop_port_omitted _ _ _ _ _ _ _ _ H Hno).
Qed.

Lemma http_requests_create_port c : port (http_requests_create c) = port c.
Proof.
  unfold http_requests_create. now destruct (http_requests_build c).
Qed.

Lemma json_process_connection_finish_port c n w r c' w' :
  json_process_connection_finish (c, n) w = Ok (r, c') w' ->
  r = n /\ port c' = port c /\ port c <> 0.
Proof.
  unfold json_process_connection_finish. intros H.
  destruct (host c); [|discriminate].
  destruct (port c =? 0) eqn:Hp; [discriminate|].
  monad_inv H; rewrite http_requests_create_port; simpl; repeat split; lia.
Qed.

(** The two checks that follow the key loop, on a port left at 0. *)
Lemma port_zero_dies value slot w c clients w1 :
  json_typeof value = json_object ->
  json_process_connection_keys value w = Ok (c, clients) w1 ->
  port c = 0 ->
  died_with (json_process_connection value slot w)
    (match host c with
     | Some _ => port_not_defined
     | None => host_not_defined
     end).
Proof.
  intros Hty Hk Hp. unfold json_process_connection. rewrite Hty. simpl.
  unfold bind. rewrite Hk. unfold json_process_connection_finish.
  destruct (host c).
  - rewrite Hp. simpl. do 2 eexists. split; [reflexivity|].
    split; [discriminate | reflexivity].
  - do 2 eexists. split; [reflexivity|]. split; [discriminate | reflexivity].
Qed.

(** C10: when the members of a template leave the port at 0,
    [json_process_connection] ends the process; the diagnostic is the
    one for a port that is not defined, unless the host is missing too,
    which is reported first. *)
Theorem port_zero_is_fatal (value : json_value) (slot : option connection)
    (w : world) (c : connection) (clients : Z) (w1 : world) :
  json_typeof value = json_object ->
  json_process_connection_keys value w = Ok (c, clients) w1 ->
  port c = 0 ->
  died_with (json_process_connection value slot w)
    (match host c with
     | Some _ => port_not_defined
     | None => host_not_defined
     end).
Proof. apply port_zero_dies. Qed.

(** No loaded connection has port 0. *)
Lemma loaded_port_nonzero value slot w r c w' :
  json_typeof value = json_object ->
  json_process_connection value slot w = Ok (r, Some c) w' ->
  port c <> 0.
Proof.
  intros Hty H. unfold json_process_connection in H. rewrite Hty in H.
  simpl in H. monad_inv H. destruct a as [c0 n0], a0 as [r0 c1].
  apply json_process_connection_finish_port in Hm0 as (_ & Hp & Hnz).
  simpl. congruence.
Qed.

(** Leaving the port out has the same end as setting it to 0, given
    that the default port is 0. *)
Lemma port_omitted_is_fatal kvs slot w c clients w1 :
  port connection_init = 0 ->
  json_process_connection_keys (JObject kvs) w = Ok (c, clients) w1 ->
  Forall (fun kv => fst kv <> "port") kvs ->
  died_with (json_process_connection (JObject kvs) slot w)
    (match host c with
     | Some _ => port_not_defined
     | None => host_not_defined
     end).
Proof.
  intros H0 Hk Hno. eapply port_zero_dies; eauto.
  rewrite (json_process_connection_keys_port_omitted _ _ _ _ _ Hk Hno).
  exact H0.
Qed.

(** ** args_parse *)

(** C7: once the options are read without error, [args_parse] ends the
    process with [EXIT_FAILURE], after the ramp-up diagnostic and the
    usage text, whenever [cfg.ramp_up >= cfg.duration]; when
    [cfg.ramp_up < cfg.duration] nothing is reported for it and the
    outcome is that of the check on the request file alone. *)
Theorem args_parse_ramp_up (opts : list (ascii * string)) (w w1 : world) :
  (modify_cfg args_parse_defaults ;;; args_parse_options opts) w = Ok tt w1 ->
  EXIT_FAILURE <> 0 /\
  (cfg_ramp_up (cfg w1) >= cfg_duration (cfg w1) ->
   args_parse opts w =
     Exit EXIT_FAILURE
       (report s_plain "Usage: mb <options>"
          (report s_error ramp_up_ge_duration w1))) /\
  (cfg_ramp_up (cfg w1) < cfg_duration (cfg w1) ->
   args_parse opts w =
     match cfg_file_req (cfg w1) with
     | Some _ => Ok 0 w1
     | None =>
         Exit EXIT_FAILURE
           (report s_plain "Usage: mb <options>"
              (report s_error "need to specify an input requests file" w1))
     end).
Proof.
  intros H. split; [discriminate|].
  unfold args_parse. unfold bind in H |- *.
  destruct (modify_cfg args_parse_defaults w) as [u w0|]; [|discriminate].
  destruct (args_parse_options opts w0) as [u' w0'|]; [|discriminate].
  injection H as _ ->.
  unfold args_parse_checks, bind, get_cfg. split; intros Hc.
  - destruct (cfg_ramp_up (cfg w1) >=? cfg_duration (cfg w1)) eqn:Hge; [|lia].
    reflexivity.
  - destruct (cfg_ramp_up (cfg w1) >=? cfg_duration (cfg w1)) eqn:Hge; [lia|].
    unfold ret. destruct (cfg_file_req (cfg w1)); reflexivity.
Qed.

(** [args_parse] returns only with [cfg.ramp_up < cfg.duration]. *)
Lemma args_parse_returns opts w r w' :
  args_parse opts w = Ok r w' -> cfg_ramp_up (cfg w') < cfg_duration (cfg w').
Proof.
  unfold args_parse. intros H.
  apply bind_Ok in H as (u & w0 & H0 & H).
  apply bind_Ok in H as (u' & w1 & H1 & H).
  unfold args_parse_checks, bind, get_cfg in H.
  destruct (cfg_ramp_up (cfg w1) >=? cfg_duration (cfg w1)) eqn:Hge;
    [discriminate|].
  unfold ret in H. destruct (cfg_file_req (cfg w1)); [|discriminate].
  injection H as _ <-. lia.
Qed.

(** ** json_process_connection: clients *)

Lemma clients_above_max i v c n w :
  json_typeof v = json_integer ->
  MB_MAX_CLIENTS < to_int (u_integer v) ->
  died_with (json_process_connection_key i "clients" v (c, n) w)
            too_many_clients.
Proof.
  intros Hty Hgt. unfold json_process_connection_key. cbn.
  unfold bind, json_check_value. rewrite Hty. cbn.
  destruct (to_int (u_integer v) >? MB_MAX_CLIENTS) eqn:Hc; [|lia].
  do 2 eexists. split; [reflexivity|]. split; [discriminate | reflexivity].
Qed.

Lemma clients_up_to_max i v c n w :
  json_typeof v = json_integer ->
  to_int (u_integer v) <= MB_MAX_CLIENTS ->
  json_process_connection_key i "clients" v (c, n) w =
  Ok (c, to_int (u_integer v)) w.
Proof.
  intros Hty Hle. unfold json_process_connection_key. cbn.
  unfold bind, json_check_value. rewrite Hty. cbn.
  destruct (to_int (u_integer v) >? MB_MAX_CLIENTS) eqn:Hc; [lia|].
  reflexivity.
Qed.

(** A negative return value stops [json_process_connections]. *)
Lemma clients_negative_fatal i v s w r slot w' :
  json_typeof v = json_object ->
  json_process_connection v (mjoin (ld_cs s !! Z.to_nat (ld_c s))) w
    = Ok (r, slot) w' ->
  r < 0 ->
  died_with (json_process_connections_step i v s w)
            "invalid input request file (array %d)".
Proof.
  intros Hty H Hr. unfold json_process_connections_step.
  rewrite Hty. cbn. unfold bind. rewrite H.
  destruct (r <? 0) eqn:Hc; [|lia].
  do 2 eexists. split; [reflexivity|]. split; [discriminate | reflexivity].
Qed.

(** A return value of 0 does not: the cursor and the count stay. *)
Lemma clients_zero_step i v s w slot w' :
  json_typeof v = json_object ->
  json_process_connection v (mjoin (ld_cs s !! Z.to_nat (ld_c s))) w
    = Ok (0, slot) w' ->
  json_process_connections_step i v s w =
  Ok (mk_loader_state (<[Z.to_nat (ld_c s) := slot]> (ld_cs s))
                      (ld_c s) (ld_connections s)) w'.
Proof.
  intros Hty H. unfold json_process_connections_step.
  rewrite Hty. cbn. unfold bind. rewrite H. cbn.
  unfold json_process_connections_expand. cbn. now rewrite Z.add_0_r.
Qed.

(** What [json_process_connections] does after a call that returned
    [r >= 0]. *)
Lemma json_process_connections_step_eq i v s w r slot w' :
  json_typeof v = json_object ->
  json_process_connection v (mjoin (ld_cs s !! Z.to_nat (ld_c s))) w
    = Ok (r, slot) w' ->
  0 <= r ->
  json_process_connections_step i v s w =
  Ok (json_process_connections_expand r slot
        (mk_loader_state (<[Z.to_nat (ld_c s) := slot]> (ld_cs s))
                         (ld_c s) (ld_connections s))) w'.
Proof.
  intros Hty H Hr. unfold json_process_connections_step.
  rewrite Hty. cbn. unfold bind. rewrite H.
  destruct (r <? 0) eqn:Hc; [lia | reflexivity].
Qed.

Lemma clients_zero_template slot w a :
  0 <= MB_MAX_CLIENTS ->
  host_from connection_init = None ->
  host_resolve "h" 80 = Some a ->
  exists c w',
    json_process_connection
      (JObject [("host", JString "h"); ("port", JInteger 80);
                ("clients", JInteger 0)]) slot w
    = Ok (0, Some c) w'.
Proof.
  destruct E as [maxc cookies0 dur tls ssl0 strtol0 init resolve build
                 connect seed cpy].
  cbn [MB_MAX_CLIENTS host_resolve connection_init].
  intros Hmax Hfrom Hres.
  assert (Hc : (0 >? maxc) = false) by lia.
  destruct init as [? ? ? ? ? ? ? init_addr_to ? ? ? ? ? ? ? ? ? ? ? ? ?
                    init_req_body ? ? ? ? ? ? ? ? ? ? ? ? ? ? ? ? ? ? ? ?].
  cbn in Hfrom. subst.
  vm_compute. vm_compute in Hc. rewrite Hc.
  destruct init_addr_to; [|rewrite Hres]; eauto.
Qed.

(** C3, at [clients_zero_file]: the loader does not stop at
    [clients = 0]; it returns with one connection counted. *)
Theorem clients_zero_not_rejected (w : world) (a : addrinfo) :
  0 <= MB_MAX_CLIENTS ->
  host_from connection_init = None ->
  host_resolve "h" 80 = Some a ->
  exists cs w', requests_read clients_zero_file w = Ok (cs, 1) w'.
Proof.
  intros Hmax Hfrom Hres.
  destruct (clients_zero_template None w a Hmax Hfrom Hres) as (c & w' & Hc).
  unfold requests_read, clients_zero_file, json_process_connections.
  cbn -[json_process_connections_step]. change (Z.of_nat 1) with 1.
  cbn -[json_process_connections_step]. unfold bind.
  erewrite json_process_connections_step_eq; [|reflexivity|exact Hc|lia].
  cbn. eauto.
Qed.

(** ** request_initialize_body_random *)

(** The buffer is a function of the seed argument and of
    [req_body_size]. *)
Lemma request_initialize_body_random_deterministic c c' i :
  req_body_size c = req_body_size c' ->
  req_body_random (request_initialize_body_random c i) =
  req_body_random (request_initialize_body_random c' i).
Proof.
  intros H. unfold request_initialize_body_random, random_bytes_alloc.
  simpl. now rewrite H.
Qed.

Lemma request_initialize_body_random_payload c i :
  req_body_random (request_initialize_body_random c i) =
  Some (mcg64cpy (mcg64_seed (i * 2)) (random_bytes_alloc c)).
Proof. reflexivity. Qed.

(** In [json_process_connection] the seed argument is the position [i]
    of the ["body"] member among the members of the template. *)
Lemma body_member_seed i v c n w c' n' w' :
  json_typeof v = json_object ->
  json_process_connection_key i "body" v (c, n) w = Ok (c', n') w' ->
  req_body_type c' = body_random ->
  req_body_random c' =
  Some (mcg64cpy (mcg64_seed (i * 2)) (random_bytes_alloc c')).
Proof.
  intros Hty H Hr. unfold json_process_connection_key in H. cbn in H.
  rewrite Hty in H. cbn in H. monad_inv H.
  destruct (req_body_type a) eqn:Ha.
  - congruence.
  - reflexivity.
Qed.

(** The copies made for [clients > 1] are seeded with their offset [j]
    from the template. *)
Lemma duplicate_connection_payload c j :
  req_body_type c = body_random ->
  req_body_random (duplicate_connection c j) =
  Some (mcg64cpy (mcg64_seed (j * 2)) (random_bytes_alloc c)).
Proof.
  intros H. unfold duplicate_connection, http_requests_create. rewrite H.
  destruct (http_requests_build _). reflexivity.
Qed.

Lemma random_body_template_loads h slot w a :
  host_from connection_init = None ->
  host_resolve h 80 = Some a ->
  exists c w',
    json_process_connection (random_body_template h) slot w
    = Ok (1, Some c) w' /\
    host c = Some h /\
    req_body_random c = Some (mcg64cpy (mcg64_seed 4) 27).
Proof.
  destruct E as [maxc cookies0 dur tls ssl0 strtol0 init resolve build
                 connect seed cpy].
  cbn [host_resolve connection_init mcg64cpy mcg64_seed].
  intros Hfrom Hres.
  destruct init as [? ? ? ? ? ? ? init_addr_to ? ? ? ? ? ? ? ? ? ? ? ? ?
                    init_req_body ? ? ? ? ? ? ? ? ? ? ? ? ? ? ? ? ? ? ? ?].
  cbn in Hfrom. subst.
  unfold random_body_template.
  destruct init_req_body, init_addr_to; vm_compute; rewrite ?Hres;
    match goal with |- context [build ?x] => destruct (build x) end;
    do 2 eexists; (split; [reflexivity|]); split; reflexivity.
Qed.

(** C1, at [two_templates_file]: the two templates are loaded into
    slots 0 and 1, and both connections get the buffer drawn from seed
    argument 2, the position of the ["body"] member, so the two
    payloads are equal. *)
Theorem same_member_index_same_payload (w : world) (a b : addrinfo) :
  host_from connection_init = None ->
  host_resolve "a" 80 = Some a ->
  host_resolve "b" 80 = Some b ->
  exists cs w' c0 c1,
    requests_read two_templates_file w = Ok (cs, 2) w' /\
    cs !! 0%nat = Some (Some c0) /\
    cs !! 1%nat = Some (Some c1) /\
    host c0 = Some "a" /\
    host c1 = Some "b" /\
    req_body_random c0 = Some (mcg64cpy (mcg64_seed (2 * 2)) 27) /\
    req_body_random c1 = req_body_random c0.
Proof.
  intros Hfrom Ha Hb.
  destruct (random_body_template_loads "a" None w a Hfrom Ha)
    as (c0 & w0 & H0 & Hh0 & Hp0).
  destruct (random_body_template_loads "b" None w0 b Hfrom Hb)
    as (c1 & w1 & H1 & Hh1 & Hp1).
  exists [Some c0; Some c1; None], w1, c0, c1.
  split; [|repeat split; auto; congruence].
  unfold requests_read, two_templates_file, json_process_connections.
  cbn -[json_process_connections_step random_body_template].
  change (Z.of_nat 2) with 2.
  cbn -[json_process_connections_step random_body_template]. unfold bind.
  erewrite json_process_connections_step_eq; [|reflexivity|exact H0|lia].
  cbn -[json_process_connections_step random_body_template].
  erewrite json_process_connections_step_eq; [|reflexivity|exact H1|lia].
  reflexivity.
Qed.

End LoaderProofs.

Lemma json_process_connection_body_random_witness :
  died_with
    (json_process_connection_body
       (JObject [("content", JString "abc"); ("type", JString "random")])
       sample_connection_init world0)
    body_size_zero.
Proof.
  refine (proj1 (json_process_connection_body_random
            (JObject [("content", JString "abc"); ("type", JString "random")])
            sample_connection_init world0 _ _ eq_refl eq_refl) eq_refl).
Defined.

Lemma port_zero_is_fatal_witness :
  died_with
    (json_process_connection (E := sample_externals)
       (JObject [("host", JString "example.org"); ("port", JInteger 0)])
       None world0)
    port_not_defined.
Proof.
  exact (port_zero_is_fatal (E := sample_externals)
           (JObject [("host", JString "example.org"); ("port", JInteger 0)])
           None world0 _ _ _ eq_refl eq_refl eq_refl).
Defined.

Lemma args_parse_ramp_up_witness :
  exists w, args_parse (E := sample_externals)
              [("d"%char, "5"); ("r"%char, "5"); ("i"%char, "reqs.json")]
              world0 = Exit EXIT_FAILURE w /\
            head (diagnostics w) = Some (s_plain, "Usage: mb <options>").
Proof.
  eexists. split.
  - refine (proj1 (proj2 (args_parse_ramp_up (E := sample_externals)
              [("d"%char, "5"); ("r"%char, "5"); ("i"%char, "reqs.json")]
              world0 _ eq_refl)) _).
    vm_compute. congruence.
  - reflexivity.
Defined.

Lemma clients_zero_not_rejected_witness :
  exists cs w',
    requests_read (E := sample_externals) clients_zero_file world0
    = Ok (cs, 1) w'.
Proof.
  exact (clients_zero_not_rejected (E := sample_externals) world0 80
           ltac:(vm_compute; congruence) eq_refl eq_refl).
Defined.

(** With a second template after the one with [clients = 0], the
    second overwrites the slot of the first, and the count of 2 covers a
    slot that was never written. *)
Example clients_zero_leaves_slot_unwritten :
  match requests_read (E := sample_externals)
          (JArray [JObject [("host", JString "h"); ("port", JInteger 80);
                            ("clients", JInteger 0)];
                   JObject [("host", JString "g"); ("port", JInteger 81)]])
          world0 with
  | Ok ([Some c0; None; None], 2) _ => host c0 = Some "g" /\ port c0 = 81
  | _ => False
  end.
Proof. vm_compute. split; reflexivity. Qed.

Lemma same_member_index_same_payload_witness :
  exists cs w' c0 c1,
    requests_read (E := sample_externals) two_templates_file world0
      = Ok (cs, 2) w' /\
    cs !! 0%nat = Some (Some c0) /\
    cs !! 1%nat = Some (Some c1) /\
    host c0 = Some "a" /\
    host c1 = Some "b" /\
    req_body_random c0 =
      Some (mcg64cpy (Externals := sample_externals)
              (mcg64_seed (Externals := sample_externals) (2 * 2)) 27) /\
    req_body_random c1 = req_body_random c0.
Proof.
  exact (same_member_index_same_payload (E := sample_externals)
           world0 80 80 eq_refl eq_refl eq_refl).
Defined.

(** Within one template too: with ["body"] at index 2 and three
    clients, the connection at offset 2 repeats the payload of the
    template's own connection. *)
Example sibling_repeats_template_payload :
  match requests_read (E := sample_externals)
          (JArray [JObject [("host", JString "a"); ("port", JInteger 80);
                            ("body", JObject [("type", JString "random");
                                              ("size", JInteger 16)]);
                            ("clients", JInteger 3)]]) world0 with
  | Ok ([Some c0; Some c1; Some c2; None], 3) _ =>
      req_body_random c0 = req_body_random c2 /\
      req_body_random c0 <> req_body_random c1 /\
      duplicate c0 = false /\ duplicate c1 = true /\ duplicate c2 = true
  | _ => False
  end.
Proof. vm_compute. repeat split; congruence. Qed.

(** A port of 2^32 is stored as 0 by the conversion to [int] and ends
    the same way. *)
Example port_wraps_to_zero :
  died_with
    (json_process_connection (E := sample_externals)
       (JObject [("host", JString "example.org");
                 ("port", JInteger 4294967296)])
       None world0)
    port_not_defined.
Proof.
  do 2 eexists. split; [vm_compute; reflexivity|].
  split; [discriminate | reflexivity].
Qed.
